(** * rest-hooks: SimpleResource fetch descriptors and the schema engine

    A shallow embedding of

    - [SimpleResource] (the abstract resource class: URL construction, the
      abstract [fetch], and the six fetch shapes built from them), and
    - the normalization / denormalization engine that the [schema.Object]
      test-suite exercises.

    JavaScript values are an inductive type, objects are association lists
    of their own enumerable properties in insertion order, Immutable.js maps
    are finite maps, classes are records of their static members, and code
    that throws returns a completion. *)

Set Warnings "-register-all".
From stdpp Require Import gmap strings list fin_maps pretty.
From Stdlib Require Import ZArith.

#[local] Open Scope string_scope.
#[local] Open Scope list_scope.

(** ** JavaScript values *)

Module Js.

(** The values that flow through the library.  Numbers are the integers the
    resources use as identifiers.  [VObj] is a plain object (own enumerable
    properties, insertion order), [VArr] a plain array; [VMap] and [VList]
    are their Immutable.js counterparts as [fromJS] builds them.  [VRef] is
    the reference pair (type name, primary key) that stands for an entity in
    a normalized result, [VDeleted] the tombstone marker. *)
Inductive Value : Type :=
| VUndefined
| VNull
| VBool (b : bool)
| VNum (n : Z)
| VStr (s : string)
| VRef (ty key : string)
| VDeleted
| VArr (xs : list Value)
| VObj (ms : list (string * Value))
| VList (xs : list Value)
| VMap (m : gmap string Value).

(** A plain object literal, e.g. the [params] of a fetch shape. *)
Abbreviation Obj := (list (string * Value)).

(** [Object.prototype.hasOwnProperty.call(o, k)] *)
Fixpoint hasOwnProperty (o : Obj) (k : string) : bool :=
  match o with
  | [] => false
  | (k', _) :: o' => if String.eqb k' k then true else hasOwnProperty o' k
  end.

(** [o[k]] on an own property; [None] when [o] has no such property. *)
Fixpoint ownProperty (o : Obj) (k : string) : option Value :=
  match o with
  | [] => None
  | (k', v) :: o' => if String.eqb k' k then Some v else ownProperty o' k
  end.

(** [o.k]: a property that is not there reads as [undefined]. *)
Definition prop (o : Obj) (k : string) : Value :=
  default VUndefined (ownProperty o k).

(** [Object.keys(o)] *)
Definition keys (o : Obj) : list string := map fst o.

(** ToBoolean *)
Definition truthy (v : Value) : bool :=
  match v with
  | VUndefined | VNull => false
  | VBool b => b
  | VNum n => negb (n =? 0)%Z
  | VStr s => negb (String.eqb s "")
  | _ => true
  end.

(** [typeof v] *)
Definition typeof (v : Value) : string :=
  match v with
  | VUndefined => "undefined"
  | VBool _ => "boolean"
  | VNum _ => "number"
  | VStr _ => "string"
  | VDeleted => "symbol"
  | _ => "object"
  end.

(** [s.endsWith(suffix)] *)
Definition endsWith (s suffix : string) : bool :=
  let n := String.length s in
  let m := String.length suffix in
  (m <=? n)%nat && String.eqb (String.substring (n - m) m s) suffix.

(** A value that [typeof] says is a string, as that string. *)
Definition stringValue (v : Value) : string :=
  match v with
  | VStr s => s
  | _ => ""
  end.

(** The errors of the library: an abstract operation called without an
    override, a payload that does not fit its schema, a failed fetch. *)
Inductive JsError : Type :=
| NotImplementedError
| SchemaError
| FetchError (msg : string).

(** What running a piece of code comes to: a value, or a thrown error. *)
Inductive Completion (A : Type) : Type :=
| Returns (a : A)
| Throws (e : JsError).
Arguments Returns {A} a.
Arguments Throws {A} e.

(** A promise, by how it settles. *)
Inductive Promise (A : Type) : Type :=
| Fulfilled (a : A)
| Rejected (e : JsError).
Arguments Fulfilled {A} a.
Arguments Rejected {A} e.

(** [p.then(f)] *)
Definition then_ {A B : Type} (p : Promise A) (f : A -> B) : Promise B :=
  match p with
  | Fulfilled a => Fulfilled (f a)
  | Rejected e => Rejected e
  end.

End Js.
Import Js.

(** ** The static side of a resource class *)

Module This.

(** [Method], from [./types]. *)
Inductive Method : Type := Mget | Mpost | Mput | Mpatch | Mdelete.

(** A network request as [fetch(method, url, body)] would issue it. *)
Record Request : Type := mkRequest {
  req_method : Method;
  req_url : string;
  req_body : option Value
}.

(** Code that may reach the network: the requests it issued, and its
    completion. *)
Definition Net (A : Type) : Type := (list Request * Completion A)%type.

(** What a concrete resource class has to declare itself: its name, the
    [urlRoot] its URLs start from, and [pk], the primary key of a params
    object as the string a URL shows ([None] for [undefined]). *)
Record Decl : Type := mkDecl {
  name : string;
  urlRoot : string;
  pk : Obj -> option string
}.

Section Members.
(** [FetchOptions] (from the core package) and the DOM's [Response] are
    declared outside these sources. *)
Variables FetchOptions Response : Type.

(** A class [this] that extends [SimpleResource]: its declaration and
    the static methods as the class ends up with them, inherited or
    overridden.  [this.url(params)] is [url this params]. *)
Record t : Type := mkClass {
  decl : Decl;
  url : Obj -> string;
  listUrl : Obj -> string;
  fetch : Method -> string -> option Value -> Net (Promise Value);
  fetchResponse : Method -> string -> option Value -> Net (Promise Response);
  getFetchOptions : option FetchOptions
}.
End Members.

Arguments mkClass {FetchOptions Response} _ _ _ _ _ _.
Arguments decl {FetchOptions Response} _.
Arguments url {FetchOptions Response} _ _.
Arguments listUrl {FetchOptions Response} _ _.
Arguments fetch {FetchOptions Response} _ _ _ _.
Arguments fetchResponse {FetchOptions Response} _ _ _ _.
Arguments getFetchOptions {FetchOptions Response} _.
End This.

(** ** Fetch shapes *)

Module Shape.

Inductive Kind : Type := read | mutate.

Section Shapes.
Context {FetchOptions Response : Type}.

(** The three schemas the shapes of a resource carry: the class itself
    ([schema: this]), an array of it ([schema: [this]]), and the class
    wrapped in a [schemas.Delete]. *)
Inductive Schema : Type :=
| SchemaThis (this : This.t FetchOptions Response)
| SchemaArray (this : This.t FetchOptions Response)
| SchemaDelete (this : This.t FetchOptions Response).

(** A fetch descriptor.  A read shape's [fetch] takes [params] alone, a
    mutate shape's takes [params] and a body; a body handed to a read
    shape's [fetch] is an argument it has no parameter for. *)
Record FetchShape : Type := mkShape {
  type : Kind;
  schema : Schema;
  options : option FetchOptions;
  getFetchKey : Obj -> string;
  fetch : Obj -> option Value -> This.Net (Promise Value)
}.

(** What a descriptor makes of one invocation [(params, body)]: the cache
    key, [shape.getFetchKey(params)], and the request,
    [shape.fetch(params, body)]. *)
Definition invoke (shape : FetchShape) (params : Obj) (body : option Value)
  : string * This.Net (Promise Value) :=
  (getFetchKey shape params, fetch shape params body).
End Shapes.

Arguments Schema : clear implicits.
Arguments FetchShape : clear implicits.
End Shape.

(** ** SimpleResource *)

Module SimpleResource.
Import Shape.
Section Static.
Context {FetchOptions Response : Type}.
(** [paramsToString], from [./paramsToString]. *)
Variable paramsToString : Obj -> string.

(** [static toString()] *)
Definition toString (this : This.Decl) : string :=
  This.name this +:+ "::" +:+ This.urlRoot this.

(** [static get key()] *)
Definition key (this : This.Decl) : string := This.urlRoot this.

(** [static url(urlParams)] *)
Definition url (this : This.Decl) (urlParams : Obj) : string :=
  if hasOwnProperty urlParams "url"
     && truthy (prop urlParams "url")
     && String.eqb (typeof (prop urlParams "url")) "string"
  then stringValue (prop urlParams "url")
  else
    match This.pk this urlParams with
    | Some id =>
        if endsWith (This.urlRoot this) "/"
        then This.urlRoot this +:+ id
        else This.urlRoot this +:+ "/" +:+ id
    | None => This.urlRoot this
    end.

(** [static listUrl(searchParams = {})]; a call without [searchParams] is
    a call with the empty object. *)
Definition listUrl (this : This.Decl) (searchParams : Obj) : string :=
  if negb (length (keys searchParams) =? 0)%nat
  then This.urlRoot this +:+ "?" +:+ paramsToString searchParams
  else This.urlRoot this.

(** [static fetch(method, url, body)]: abstract, it throws. *)
Definition fetch (method : This.Method) (url : string) (body : option Value)
  : This.Net (Promise Value) :=
  ([], Throws NotImplementedError).

(** [static fetchResponse(method, url, body)]: abstract, it throws. *)
Definition fetchResponse (method : This.Method) (url : string)
    (body : option Value) : This.Net (Promise Response) :=
  ([], Throws NotImplementedError).

(** [static getFetchOptions()] *)
Definition getFetchOptions : option FetchOptions := None.

(** [static getFetchInit()] *)
Definition getFetchInit (this : This.t FetchOptions Response)
  : option FetchOptions :=
  This.getFetchOptions this.

(** [get url()] of an instance: the url that was set on it, or else the
    class's [url] of the instance. *)
Definition get_url (this : This.t FetchOptions Response)
    (__url : option string) (instance : Obj) : string :=
  match __url with
  | Some u => u
  | None => This.url this instance
  end.

(** [class X extends SimpleResource] with nothing overridden: every static
    method is the one above. *)
Definition extends (d : This.Decl) : This.t FetchOptions Response :=
  This.mkClass d (url d) (listUrl d) fetch fetchResponse getFetchOptions.

(** [static detailShape()] *)
Definition detailShape (this : This.t FetchOptions Response)
  : FetchShape FetchOptions Response :=
  let getFetchKey := fun params : Obj => "GET " +:+ This.url this params in
  let options := This.getFetchOptions this in
  {| type := read;
     schema := SchemaThis this;
     options := options;
     getFetchKey := getFetchKey;
     Shape.fetch := fun params _ =>
       This.fetch this This.Mget (This.url this params) None |}.

(** [static listShape()] *)
Definition listShape (this : This.t FetchOptions Response)
  : FetchShape FetchOptions Response :=
  let getFetchKey :=
    fun params : Obj => "GET " +:+ This.listUrl this params in
  let options := This.getFetchOptions this in
  {| type := read;
     schema := SchemaArray this;
     options := options;
     getFetchKey := getFetchKey;
     Shape.fetch := fun params _ =>
       This.fetch this This.Mget (This.listUrl this params) None |}.

(** [static createShape()] *)
Definition createShape (this : This.t FetchOptions Response)
  : FetchShape FetchOptions Response :=
  let options := This.getFetchOptions this in
  {| type := mutate;
     schema := SchemaThis this;
     options := options;
     getFetchKey := fun params => "POST " +:+ This.listUrl this params;
     Shape.fetch := fun params body =>
       This.fetch this This.Mpost (This.listUrl this params) body |}.

(** [static updateShape()] *)
Definition updateShape (this : This.t FetchOptions Response)
  : FetchShape FetchOptions Response :=
  let options := This.getFetchOptions this in
  {| type := mutate;
     schema := SchemaThis this;
     options := options;
     getFetchKey := fun params => "PUT " +:+ This.url this params;
     Shape.fetch := fun params body =>
       This.fetch this This.Mput (This.url this params) body |}.

(** [static partialUpdateShape()] *)
Definition partialUpdateShape (this : This.t FetchOptions Response)
  : FetchShape FetchOptions Response :=
  let options := This.getFetchOptions this in
  {| type := mutate;
     schema := SchemaThis this;
     options := options;
     getFetchKey := fun params => "PATCH " +:+ This.url this params;
     Shape.fetch := fun params body =>
       This.fetch this This.Mpatch (This.url this params) body |}.

(** [static deleteShape()] *)
Definition deleteShape (this : This.t FetchOptions Response)
  : FetchShape FetchOptions Response :=
  let options := This.getFetchOptions this in
  {| type := mutate;
     schema := SchemaDelete this;
     options := options;
     getFetchKey := fun params => "DELETE " +:+ This.url this params;
     Shape.fetch := fun params _ =>
       let '(requests, completion) :=
         This.fetch this This.Mdelete (This.url this params) None in
       (requests,
        match completion with
        | Returns p => Returns (then_ p (fun _ => VObj params))
        | Throws e => Throws e
        end) |}.

End Static.
End SimpleResource.

(** ** The schema engine

    The schema classes, [normalize] and [denormalize] are not among the
    sources, which have their [schema.Object] tests only: this module
    models them from the specification. *)

Module Normalizr.

(** *** Get member by key *)

(** [o[k] = x] on the properties of a plain object: an existing property
    keeps its place, a new one goes last. *)
Fixpoint assocSet (k : string) (x : Value) (o : Obj) : Obj :=
  match o with
  | [] => [(k, x)]
  | (k', v) :: o' =>
      if String.eqb k' k then (k', x) :: o' else (k', v) :: assocSet k x o'
  end.

(** [delete o[k]] *)
Definition assocDelete (k : string) (o : Obj) : Obj :=
  filter (fun kv => String.eqb kv.1 k = false) o.

(** Modelled from the spec: the abstract "get member by key" capability
    of section 4.3, with its two backings: a plain object is read with
    [o[k]], an Immutable map with [m.get(k)]; nothing else has members. *)
Definition getMember (k : string) (v : Value) : option Value :=
  match v with
  | VObj o => ownProperty o k
  | VMap m => m !! k
  | _ => None
  end.

(** Modelled from the spec: the write that goes with [getMember],
    [{...o, [k]: x}] on a plain object, [m.set(k, x)] on an Immutable
    map. *)
Definition setMember (k : string) (x : Value) (v : Value) : Value :=
  match v with
  | VObj o => VObj (assocSet k x o)
  | VMap m => VMap (<[k := x]> m)
  | _ => v
  end.

(** Modelled from the spec: the removal that goes with [getMember],
    [delete o[k]] on a plain object, [m.delete(k)] on an Immutable map. *)
Definition deleteMember (k : string) (v : Value) : Value :=
  match v with
  | VObj o => VObj (assocDelete k o)
  | VMap m => VMap (delete k m)
  | _ => v
  end.

(** Modelled from the spec: the keys a value has members under,
    [Object.keys(o)] or the keys of an Immutable map. *)
Definition memberKeys (v : Value) : list string :=
  match v with
  | VObj o => keys o
  | VMap m => (map_to_list m).*1
  | _ => []
  end.

(** The values that have members. *)
Definition isContainer (v : Value) : bool :=
  match v with
  | VObj _ | VMap _ => true
  | _ => false
  end.

(** The elements of an array or an Immutable list, in order. *)
Definition elements (v : Value) : list Value :=
  match v with
  | VArr xs | VList xs => xs
  | _ => []
  end.

(** The same kind of list with other elements. *)
Definition setElements (v : Value) (ys : list Value) : Value :=
  match v with
  | VArr _ => VArr ys
  | VList _ => VList ys
  | _ => v
  end.

(** [v === null] *)
Definition isNull (v : Value) : bool :=
  match v with
  | VNull => true
  | _ => false
  end.

(** [v === null || v === undefined] *)
Definition nullish (v : Value) : bool :=
  match v with
  | VNull | VUndefined => true
  | _ => false
  end.

(** [fromJS]: plain objects and arrays, deeply, as Immutable maps and
    lists. *)
Fixpoint fromJS (v : Value) : Value :=
  match v with
  | VArr xs => VList (map fromJS xs)
  | VObj o => VMap (list_to_map (map (fun kv => (kv.1, fromJS kv.2)) o))
  | VList xs => VList (map fromJS xs)
  | VMap m => VMap (fromJS <$> m)
  | _ => v
  end.

(** Two values hold the same data when they differ at most in how their
    containers are backed. *)
Definition sameData (v w : Value) : Prop := fromJS v = fromJS w.



(** The string under which an identifier keys the entity table: a
    property key is always a string, [1] reads the property ["1"]. *)
Definition keyOf (id : Value) : option string :=
  match id with
  | VNum n => Some (pretty n)
  | VStr s => Some s
  | _ => None
  end.

(** The key function of [new schema.Entity(name)]: the [id] attribute. *)
Definition idAttribute (attr : string) (v : Value) : option string :=
  getMember attr v ≫= keyOf.

(** *** Schemas *)

(** Modelled from the spec: the schema variants of section 3 (the schema
    classes themselves are not among the sources; only the [schema.Object]
    tests are).  An Entity declares a type name, a primary-key function
    over the raw attributes ([None] when it yields [undefined]) and the
    schemas of its nested fields; a Composite maps member names to member
    schemas; a Collection and a Mapping carry the one schema of their
    elements or values; a Union carries its discriminator, a function
    of the raw value ([None] when it names no branch), and the schemas it
    chooses among.  [Delete] is the tombstone marker of section 4.4,
    wrapping an entity's type name and key function. *)
Inductive Schema : Type :=
| Entity (typeName : string) (pk : Value -> option string)
    (nested : list (string * Schema))
| Composite (members : list (string * Schema))
| Collection (member : Schema)
| Mapping (member : Schema)
| Union (discriminator : Value -> option string)
    (branches : list (string * Schema))
| Delete (typeName : string) (pk : Value -> option string).

Section SchemaInduction.
Variable P : Schema -> Prop.
Hypothesis HEntity : forall ty pk nested,
  Forall (fun ks => P ks.2) nested -> P (Entity ty pk nested).
Hypothesis HComposite : forall members,
  Forall (fun ks => P ks.2) members -> P (Composite members).
Hypothesis HCollection : forall s, P s -> P (Collection s).
Hypothesis HMapping : forall s, P s -> P (Mapping s).
Hypothesis HUnion : forall d branches,
  Forall (fun ks => P ks.2) branches -> P (Union d branches).
Hypothesis HDelete : forall ty pk, P (Delete ty pk).


End SchemaInduction.



(** Modelled from the spec: the entity table of section 3, a mapping
    from type name to a mapping from primary key to attribute record,
    read through [getMember] whatever backs it. *)
Definition getEntity (entities : Value) (ty key : string) : option Value :=
  getMember ty entities ≫= getMember key.

(** *** Denormalization *)

(** Modelled from the spec: the input of section 4.3 is a normalized
    reference tree or a raw identifier.  The key an input stands for under
    an Entity schema of type [ty] is that of a reference pair of this
    type, or a raw identifier's. *)
Definition refKey (ty : string) (input : Value) : option string :=
  match input with
  | VRef ty' key => if String.eqb ty' ty then Some key else None
  | _ => keyOf input
  end.

(** Modelled from the spec: the Composite rule of section 4.3.
    Denormalize the members of [input] that [members] gives a schema,
    with [f] denormalizing one member; members without a schema stay as
    they are.  A null member is found, and stays null, whatever its
    schema; the result is found when every other member is. *)
Definition denormalizeMembers {S : Type}
    (f : S -> Value -> Value * bool) (members : list (string * S))
    (input : Value) : Value * bool :=
  fold_left
    (fun acc ks =>
       match getMember ks.1 input with
       | None => acc
       | Some x =>
           if isNull x then acc
           else
             let r := f ks.2 x in
             (setMember ks.1 r.1 acc.1, acc.2 && r.2)
       end)
    members (input, true).

(** Modelled from the spec: the Mapping rule of section 4.3.  Apply [f]
    to every value of a keyed container, keys preserved; found when every
    value is. *)
Definition denormalizeValues (f : Value -> Value * bool) (input : Value)
  : Value * bool :=
  fold_left
    (fun acc k =>
       match getMember k input with
       | None => acc
       | Some x => let r := f x in (setMember k r.1 acc.1, acc.2 && r.2)
       end)
    (memberKeys input) (input, true).

(** Modelled from the spec: the Collection rule of section 4.3.  Apply
    [f] to every element of a list, order preserved; found when every
    element is (an empty list is). *)
Definition denormalizeElements (f : Value -> Value * bool) (input : Value)
  : Value * bool :=
  let rs := map f (elements input) in
  (setElements input (map fst rs), forallb snd rs).

(** Modelled from the spec: the Union rule.  The schema a
    discriminator's answer names, handed to [f]; [none] when it names
    none. *)
Fixpoint withBranch {S R : Type} (f : S -> R) (none : R) (name : string)
    (branches : list (string * S)) : R :=
  match branches with
  | [] => none
  | (n, s) :: rest =>
      if String.eqb n name then f s else withBranch f none name rest
  end.

(** Modelled from the spec: the Denormalizer's algorithm of section 4.3,
    by schema variant.  [visited] is the explicit visited-set parameter,
    the (type, key) pairs being resolved on the way down to [input].

    - Entity: an input that is a reference pair of the schema's type, or a
      raw identifier, is looked up; anything else passes through.  An
      absent entity is [(undefined, false)].  A present one has its nested
      fields denormalized against the same snapshot; one already in
      [visited] is its row as the table has it, nested references
      unresolved, and found.
    - Composite: each member independently.
    - Collection, Mapping: every element, every value.
    - Union: the discriminator selects the branch schema.
    - Delete: read like the entity it wraps. *)
Fixpoint unvisit (s : Schema) (entities : Value)
    (visited : gset (string * string)) (input : Value) : Value * bool :=
  match s with
  | Entity ty _ nested =>
      match refKey ty input with
      | None => (input, true)
      | Some key =>
          match getEntity entities ty key with
          | None => (VUndefined, false)
          | Some row =>
              if bool_decide ((ty, key) ∈ visited) then (row, true)
              else
                denormalizeMembers
                  (fun s' => unvisit s' entities ({[ (ty, key) ]} ∪ visited))
                  nested row
          end
      end
  | Composite members =>
      denormalizeMembers (fun s' => unvisit s' entities visited) members input
  | Collection member =>
      denormalizeElements (unvisit member entities visited) input
  | Mapping member =>
      denormalizeValues (unvisit member entities visited) input
  | Union discriminator branches =>
      match discriminator input with
      | None => (input, true)
      | Some name =>
          withBranch (fun s' => unvisit s' entities visited input)
            (input, true) name branches
      end
  | Delete ty _ =>
      match refKey ty input with
      | None => (input, true)
      | Some key =>
          match getEntity entities ty key with
          | None => (VUndefined, false)
          | Some row => (row, true)
          end
      end
  end.

(** Modelled from the spec: [denormalize(input, schema, snapshot)] of
    section 4.3, giving [(value, found)]. *)
Definition denormalize (input : Value) (s : Schema) (entities : Value)
  : Value * bool :=
  unvisit s entities ∅ input.

(** *** Normalization *)

(** Normalization reads and writes the entity table, and may fail: a
    state-and-error monad over the table. *)
Definition Norm (A : Type) : Type := Value -> Completion (A * Value).

Definition ret {A : Type} (a : A) : Norm A :=
  fun entities => Returns (a, entities).

Definition throw {A : Type} (e : JsError) : Norm A := fun _ => Throws e.

Definition bind {A B : Type} (m : Norm A) (k : A -> Norm B) : Norm B :=
  fun entities =>
    match m entities with
    | Returns (a, entities') => k a entities'
    | Throws e => Throws e
    end.

Notation "'let*' x := m 'in' k" := (bind m (fun x => k))
  (at level 10, x name, m at level 100, k at level 200, only parsing).

Fixpoint mapM {A B : Type} (f : A -> Norm B) (xs : list A) : Norm (list B) :=
  match xs with
  | [] => ret []
  | x :: xs' => let* y := f x in let* ys := mapM f xs' in ret (y :: ys)
  end.

(** Modelled from the spec: the shallow merge of section 4.1.  New
    values win per field; fields the new record lacks are kept from the
    old one. *)
Definition mergeRecord (old new : Value) : Value :=
  fold_left
    (fun acc k =>
       match getMember k new with
       | Some v => setMember k v acc
       | None => acc
       end)
    (memberKeys new) old.

(** Modelled from the spec: write [row] into the entity table under
    (type, key). *)
Definition setEntity (ty key : string) (row : Value) : Norm unit :=
  fun entities =>
    let rows := default (VObj []) (getMember ty entities) in
    Returns (tt, setMember ty (setMember key row rows) entities).

(** Modelled from the spec: merge an attribute record into the table
    under (type, key), with what is there if it is a record. *)
Definition addEntity (ty key : string) (record : Value) : Norm unit :=
  fun entities =>
    let merged :=
      match getEntity entities ty key with
      | Some old => if isContainer old then mergeRecord old record else record
      | None => record
      end in
    setEntity ty key merged entities.

(** Modelled from the spec: the members of a Composite or an Entity in
    section 4.1.  Normalize, in the order of [members], the members of
    [input] that [members] gives a schema, with [f] normalizing one
    member; members without a schema stay as they are. *)
Definition normalizeMembers {S : Type}
    (f : S -> Value -> Norm Value) (members : list (string * S))
    (input : Value) : Norm Value :=
  fold_left
    (fun acc ks =>
       let* obj := acc in
       match getMember ks.1 input with
       | None => ret obj
       | Some x => let* x' := f ks.2 x in ret (setMember ks.1 x' obj)
       end)
    members (ret input).

(** Modelled from the spec: the values of a Mapping in section 4.1, each
    normalized with [f]. *)
Definition normalizeValues (f : Value -> Norm Value) (input : Value)
  : Norm Value :=
  fold_left
    (fun acc k =>
       let* obj := acc in
       match getMember k input with
       | None => ret obj
       | Some x => let* x' := f x in ret (setMember k x' obj)
       end)
    (memberKeys input) (ret input).

(** Modelled from the spec: "null/undefined members are dropped from
    Composite and Mapping results" (section 4.1).  Of the members under
    the keys [ks], those whose value is null or undefined are removed. *)
Definition dropNullish (ks : list string) (obj : Value) : Value :=
  fold_left
    (fun acc k =>
       match getMember k acc with
       | Some v => if nullish v then deleteMember k acc else acc
       | None => acc
       end)
    ks obj.

(** Modelled from the spec: the Composite rule of section 4.1, with [f]
    normalizing one member.  The members the schema names are normalized,
    and those of them that come out null or undefined are dropped;
    members without a schema pass through unchanged. *)
Definition normalizeComposite {S : Type} (f : S -> Value -> Norm Value)
    (members : list (string * S)) (input : Value) : Norm Value :=
  let* obj := normalizeMembers f members input in
  ret (dropNullish members.*1 obj).

(** Modelled from the spec: the Mapping rule of section 4.1, with [f]
    normalizing one value: every value is normalized, and those that come
    out null or undefined are dropped. *)
Definition normalizeMapping (f : Value -> Norm Value) (input : Value)
  : Norm Value :=
  let* obj := normalizeValues f input in
  ret (dropNullish (memberKeys obj) obj).

(** Modelled from the spec: the schemas' [normalize] of section 4.1.

    - Entity: null and undefined are no entity and stay; otherwise the
      key function gives the primary key ([SchemaError] when it gives
      none), the declared nested fields are normalized, the resulting
      record is merged into the table under (type, key), and the reference
      pair is the result.
    - Composite, Mapping: members and values are normalized, and those
      that come out null or undefined are dropped from the result; the
      members a Composite gives no schema pass through unchanged.
    - Collection: elements are normalized, order preserved.
    - Union: the discriminator selects the branch, [SchemaError] when it
      matches none.
    - Delete: the table entry under (type, key) becomes the tombstone. *)
Fixpoint normalize (s : Schema) (input : Value) : Norm Value :=
  match s with
  | Entity ty pk nested =>
      if nullish input then ret input
      else
        match pk input with
        | None => throw SchemaError
        | Some key =>
            let* record :=
              normalizeMembers (fun s' => normalize s') nested input in
            let* done := addEntity ty key record in
            ret (VRef ty key)
        end
  | Composite members =>
      normalizeComposite (fun s' => normalize s') members input
  | Collection member =>
      let* ys := mapM (normalize member) (elements input) in
      ret (setElements input ys)
  | Mapping member =>
      normalizeMapping (normalize member) input
  | Union discriminator branches =>
      match discriminator input with
      | None => throw SchemaError
      | Some name =>
          withBranch (fun s' => normalize s' input) (throw SchemaError)
            name branches
      end
  | Delete ty pk =>
      if nullish input then ret input
      else
        match pk input with
        | None => throw SchemaError
        | Some key =>
            let* done := setEntity ty key VDeleted in
            ret (VRef ty key)
        end
  end.

(** Modelled from the spec: the Normalizer's entry point of section 4.2,
    [normalize(rawPayload, schema)], giving the normalized result and the
    entity table, or the error. *)
Definition normalizePayload (rawPayload : Value) (s : Schema)
  : Completion (Value * Value) :=
  normalize s rawPayload (VObj []).

(** What the drop leaves of a member: nothing of a null or undefined
    one. *)
Definition nonNullish (member : option Value) : option Value :=
  match member with
  | Some v => if nullish v then None else Some v
  | None => None
  end.

(** *** The schemas of a resource's shapes *)

Section ShapeSchemas.
Context {FetchOptions Response : Type}.

(** The key function of a resource class, on a raw payload. *)
Definition pkOf (this : This.Decl) (v : Value) : option string :=
  match v with
  | VObj o => This.pk this o
  | _ => None
  end.

(** Modelled from the spec: how the engine reads the schema of a shape
    (section 4.4).  The class is an Entity keyed by its [key] with no
    nested schema, an array of it a Collection of that Entity, and
    [schemas.Delete] (not among the sources) the tombstone marker. *)
Definition toSchema (s : Shape.Schema FetchOptions Response) : Schema :=
  match s with
  | Shape.SchemaThis this =>
      Entity (SimpleResource.key (This.decl this)) (pkOf (This.decl this)) []
  | Shape.SchemaArray this =>
      Collection
        (Entity (SimpleResource.key (This.decl this))
           (pkOf (This.decl this)) [])
  | Shape.SchemaDelete this =>
      Delete (SimpleResource.key (This.decl this)) (pkOf (This.decl this))
  end.

End ShapeSchemas.

End Normalizr.

(** ** Example classes and data *)

Module Examples.
Import Normalizr.

(** [pk() { return this.id }], as the string that keys the entity. *)
Definition idPk (o : Obj) : option string := ownProperty o "id" ≫= keyOf.

(** A query string: [k=v] pairs joined with [&]. *)
Definition queryString (o : Obj) : string :=
  String.concat "&"
    (map (fun kv => kv.1 +:+ "=" +:+ default "" (keyOf kv.2)) o).

(** [class User extends SimpleResource { static urlRoot = '/users' }] *)
Definition User : This.Decl := This.mkDecl "User" "/users" idPk.

(** A resource whose [urlRoot] ends with a slash. *)
Definition Article : This.Decl := This.mkDecl "Article" "/articles/" idPk.

(** A resource with neither [url] params nor a pk. *)
Definition Settings : This.Decl :=
  This.mkDecl "Settings" "/settings" (fun _ => None).

(** A concrete [fetch]: it issues the request and resolves with the body
    it sent (or null). *)
Definition echoFetch (method : This.Method) (url : string)
    (body : option Value) : This.Net (Promise Value) :=
  ([This.mkRequest method url body], Returns (Fulfilled (default VNull body))).

(** [User] with [fetch] overridden by [echoFetch]. *)
Definition UserResource : This.t unit unit :=
  This.mkClass User (SimpleResource.url User)
    (SimpleResource.listUrl queryString User)
    echoFetch SimpleResource.fetchResponse SimpleResource.getFetchOptions.

(** The schemas and tables of the [schema.Object] tests. *)
Definition userSchema : Schema := Entity "user" (idAttribute "id") [].

Definition object : Schema := Composite [("user", userSchema)].

Definition entities : Value :=
  VObj [("user",
         VObj [("1", VObj [("id", VNum 1); ("name", VStr "Nacho")])])].

Definition entitiesZero : Value :=
  VObj [("user",
         VObj [("0", VObj [("id", VNum 0); ("name", VStr "Chancho")])])].

(** The schema of the test that filters null and undefined members, and
    a payload with a null member, an undefined one and one no schema
    names. *)
Definition users : Schema :=
  Composite [("foo", userSchema); ("bar", userSchema); ("baz", userSchema)].

(** A member normalizer that gives a record's [id], and undefined for a
    record without one. *)
Definition idOrUndefined (x : Value) : Norm Value :=
  ret (default VUndefined (VStr <$> idAttribute "id" x)).

Definition payload : Value :=
  VObj [("foo", VNull); ("bar", VObj [("id", VStr "1")]);
        ("qux", VUndefined); ("n", VNum 3)].

(** Two unions over the same branches.  [byType] reads the [type]
    member through the get-member capability; [byPlainType] is
    [value => value.type], the property of a plain object, which an
    Immutable map does not have. *)
Definition byType : Schema :=
  Union (idAttribute "type") [("guest", Composite []); ("owner", object)].



Definition owner : Value := VObj [("type", VStr "owner"); ("user", VNum 1)].

End Examples.

(** ** Instances, and reading a cache key back *)

Module Instance.
Section Url.
Context {FetchOptions Response : Type}.

(** [this.__url], when it is not [undefined]. *)
Definition own_url (instance : Obj) : option string :=
  match ownProperty instance "__url" with
  | None | Some VUndefined => None
  | Some v => Some (stringValue v)
  end.

(** [get url()] on an instance, given by its own properties. *)
Definition get (this : This.t FetchOptions Response) (instance : Obj)
  : string :=
  SimpleResource.get_url this (own_url instance) instance.

(** The setter that [Object.defineProperty] gives the prototype:
    [this.__url = url]. *)
Definition set (url : string) (instance : Obj) : Obj :=
  Normalizr.assocSet "__url" (VStr url) instance.

End Url.
End Instance.

Module Key.

(** The name of a method in upper case, as a cache key spells it. *)
Definition verb (method : This.Method) : string :=
  match method with
  | This.Mget => "GET"
  | This.Mpost => "POST"
  | This.Mput => "PUT"
  | This.Mpatch => "PATCH"
  | This.Mdelete => "DELETE"
  end.

(** A cache key read back: what stands before its first space, and what
    stands after it. *)
Fixpoint split (key : string) : string * string :=
  match key with
  | EmptyString => ("", "")
  | String c rest =>
      if Ascii.eqb c (Ascii.ascii_of_nat 32) then ("", rest)
      else let r := split rest in (String c r.1, r.2)
  end.

Section Table.
Context {FetchOptions Response : Type}.

(** The six shapes of a class for given params, each with the method and
    the URL of the request its [fetch] makes, and whether that request
    carries the body. *)
Definition table (this : This.t FetchOptions Response) (params : Obj)
  : list (Shape.FetchShape FetchOptions Response
          * This.Method * string * bool) :=
  [(SimpleResource.detailShape this, This.Mget, This.url this params, false);
   (SimpleResource.listShape this, This.Mget, This.listUrl this params,
    false);
   (SimpleResource.createShape this, This.Mpost, This.listUrl this params,
    true);
   (SimpleResource.updateShape this, This.Mput, This.url this params, true);
   (SimpleResource.partialUpdateShape this, This.Mpatch,
    This.url this params, true);
   (SimpleResource.deleteShape this, This.Mdelete, This.url this params,
    false)].

End Table.

End Key.

(** ** The hooks of useResource *)

Module Hooks.
Section Render.
Context {FetchOptions Response : Type}.
(** The state of the store, the promise of a fetch in flight and the
    error of a failed one are declared outside these sources. *)
Variables State Pending Err : Type.
Abbreviation ReadShape := (Shape.FetchShape FetchOptions Response).
(** [ParamsFromShape<S> | null] *)
Abbreviation Params := (option Obj).
(** The hooks and helpers this file imports: [useRetrieve],
    [useDenormalized], [useError], [hasUsableData], and the state that
    [useContext(StateContext)] gives. *)
Variable useRetrieve : ReadShape -> Params -> option Pending.
Variable useDenormalized : ReadShape -> Params -> State -> Value * bool.
Variable useError : ReadShape -> Params -> bool -> option Err.
Variable hasUsableData : bool -> ReadShape -> bool.
Variable state : State.

(** What a hook throws: the promise React suspends on (one promise, or
    the [Promise.all] of several), an error, or the [TypeError] of reading
    an element that is not there. *)
Inductive Thrown : Type :=
| ThrowPromise (p : Pending)
| ThrowAll (ps : list Pending)
| ThrowError (e : Err)
| ThrowTypeError.

(** A call of a hook: it returns, or it throws. *)
Inductive Hook (A : Type) : Type :=
| Return (a : A)
| Throw (t : Thrown).
Arguments Return {A} a.
Arguments Throw {A} t.

(** [b && p], for a boolean and a promise that may be undefined. *)
Definition andPromise (b : bool) (p : option Pending) : option Pending :=
  if b then p else None.

(** [useOneResource(fetchShape, params)] *)
Definition useOneResource (fetchShape : ReadShape) (params : Params)
  : Hook Value :=
  let maybePromise := useRetrieve fetchShape params in
  let '(denormalized, ready) := useDenormalized fetchShape params state in
  let error := useError fetchShape params ready in
  match andPromise (negb (hasUsableData ready fetchShape)) maybePromise with
  | Some p => Throw (ThrowPromise p)
  | None =>
      match error with
      | Some e => Throw (ThrowError e)
      | None => Return denormalized
      end
  end.

(** The second [map] of [promises]: from index [i] on,
    [!hasUsableData(denormalizedValues[i][1], resourceList[i][0]) && p]. *)
Fixpoint onlyWithoutResults (resourceList : list (ReadShape * Params))
    (denormalizedValues : list (Value * bool)) (i : nat)
    (ps : list (option Pending)) : Hook (list (option Pending)) :=
  match ps with
  | [] => Return []
  | p :: ps' =>
      match denormalizedValues !! i, resourceList !! i with
      | Some d, Some r =>
          match onlyWithoutResults resourceList denormalizedValues (S i) ps'
          with
          | Return rest =>
              Return (andPromise (negb (hasUsableData d.2 r.1)) p :: rest)
          | Throw t => Throw t
          end
      | _, _ => Throw ThrowTypeError
      end
  end.

(** The [for] loop, over the [indices] still to visit: the first error
    of a resource that is not waited on is thrown. *)
Fixpoint throwFirstValidError (resourceList : list (ReadShape * Params))
    (denormalizedValues : list (Value * bool))
    (promises : list (option Pending)) (indices : list nat)
  : option Thrown :=
  match indices with
  | [] => None
  | i :: rest =>
      match resourceList !! i, denormalizedValues !! i with
      | Some (fetchShape, params), Some (_, ready) =>
          let error := useError fetchShape params ready in
          match error, mjoin (promises !! i) with
          | Some e, None => Some (ThrowError e)
          | _, _ =>
              throwFirstValidError resourceList denormalizedValues promises
                rest
          end
      | _, _ => Some ThrowTypeError
      end
  end.

(** [useManyResources(...resourceList)] *)
Definition useManyResources (resourceList : list (ReadShape * Params))
  : Hook Value :=
  let denormalizedValues :=
    map (fun r => useDenormalized r.1 r.2 state) resourceList in
  match
    onlyWithoutResults resourceList denormalizedValues 0
      (map (fun r => useRetrieve r.1 r.2) resourceList)
  with
  | Throw t => Throw t
  | Return promises =>
      match
        throwFirstValidError resourceList denormalizedValues promises
          (seq 0 (length resourceList))
      with
      | Some t => Throw t
      | None =>
          let activePromises := omap id promises in
          match activePromises with
          | [] => Return (VArr (map fst denormalizedValues))
          | _ :: _ => Throw (ThrowAll activePromises)
          end
      end
  end.

(** The arguments of [useResource]: a shape and its params, or one or
    more [[shape, params]] pairs. *)
Inductive Args : Type :=
| OneResource (fetchShape : ReadShape) (params : Params)
| ManyResources (v1 : ReadShape * Params) (vs : list (ReadShape * Params)).

(** [useResource(...args)] *)
Definition useResource (args : Args) : Hook Value :=
  match args with
  | ManyResources v1 vs => useManyResources (v1 :: vs)
  | OneResource fetchShape params => useOneResource fetchShape params
  end.

(** A resource by itself: the promise it is waited on, if its data is not
    usable; its error; its data. *)
Definition waitedOn (r : ReadShape * Params) : option Pending :=
  andPromise
    (negb (hasUsableData (useDenormalized r.1 r.2 state).2 r.1))
    (useRetrieve r.1 r.2).

Definition errorOf (r : ReadShape * Params) : option Err :=
  useError r.1 r.2 (useDenormalized r.1 r.2 state).2.

Definition dataOf (r : ReadShape * Params) : Value :=
  (useDenormalized r.1 r.2 state).1.

(** The error of a resource that has one and is not waited on. *)
Definition validError (r : ReadShape * Params) : option Err :=
  match errorOf r, waitedOn r with
  | Some e, None => Some e
  | _, _ => None
  end.

End Render.

Arguments Return {Pending Err A} a.
Arguments Throw {Pending Err A} t.
Arguments ThrowPromise {Pending Err} p.
Arguments ThrowAll {Pending Err} ps.
Arguments ThrowError {Pending Err} e.
Arguments ThrowTypeError {Pending Err}.

(** What a call of a hook threw or returned, read off its outcome. *)
Definition errorThrown {Pending Err A : Type} (h : Hook Pending Err A)
  : option Err :=
  match h with
  | Throw (ThrowError e) => Some e
  | _ => None
  end.

Definition promiseThrown {Pending Err A : Type} (h : Hook Pending Err A)
  : option Pending :=
  match h with
  | Throw (ThrowPromise p) => Some p
  | _ => None
  end.

Definition returned {Pending Err A : Type} (h : Hook Pending Err A)
  : option A :=
  match h with
  | Return a => Some a
  | _ => None
  end.
End Hooks.

(** Stand-ins for the imported hooks, to run the hooks above on examples;
    the properties below hold for any [useRetrieve], [useDenormalized],
    [useError] and [hasUsableData].  The stand-ins read a table of the
    results and the errors of the fetches that settled, by fetch key, and
    of the keys of the fetches in flight. *)
Module HookExamples.

Record t : Type := mk {
  results : list (string * Value);
  errors : list (string * string);
  inFlight : list string
}.

Section Reads.
Context {FetchOptions Response : Type}.
Abbreviation ReadShape := (Shape.FetchShape FetchOptions Response).

Definition useDenormalized (fetchShape : ReadShape) (params : option Obj)
    (state : t) : Value * bool :=
  match params ≫= (fun p => ownProperty (results state)
                              (Shape.getFetchKey fetchShape p)) with
  | Some v => (v, true)
  | None => (VUndefined, false)
  end.

Definition useRetrieve (state : t) (fetchShape : ReadShape)
    (params : option Obj) : option string :=
  params ≫= (fun p =>
    let key := Shape.getFetchKey fetchShape p in
    if bool_decide (key ∈ inFlight state) then Some key else None).

Definition useError (state : t) (fetchShape : ReadShape)
    (params : option Obj) (ready : bool) : option string :=
  if ready then None
  else params ≫= (fun p =>
         snd <$> head (filter (fun ke => ke.1 = Shape.getFetchKey fetchShape p)
                         (errors state))).

Definition hasUsableData (ready : bool) (fetchShape : ReadShape) : bool :=
  ready.

End Reads.

(** User 5 is cached, user 6 is being fetched, user 7 was not found. *)
Definition example : t :=
  mk [("GET /users/5", VObj [("id", VNum 5)])]
     [("GET /users/7", "404")]
     ["GET /users/6"].

Definition user (id : Z)
  : Shape.FetchShape unit unit * option Obj :=
  (SimpleResource.detailShape Examples.UserResource, Some [("id", VNum id)]).

End HookExamples.

(** * Properties *)

(** ** Strings and objects *)

Section JsFacts.

Lemma hasOwnProperty_ownProperty (o : Obj) (k : string) :
  hasOwnProperty o k = bool_decide (is_Some (ownProperty o k)).
Proof.
  induction o as [|[k' v] o IH]; simpl; [reflexivity|].
  now destruct (String.eqb k' k).
Qed.

Lemma substring_all (s : string) : String.substring 0 (String.length s) s = s.
Proof. induction s as [|a s IH]; simpl; [reflexivity|]. now rewrite IH. Qed.

Lemma substring_skip (pre s : string) (m : nat) :
  String.substring (String.length pre) m (pre +:+ s) = String.substring 0 m s.
Proof. induction pre as [|a pre IH]; simpl; [reflexivity|exact IH]. Qed.

Lemma length_append (s1 s2 : string) :
  String.length (s1 +:+ s2) = String.length s1 + String.length s2.
Proof. induction s1 as [|a s1 IH]; simpl; [reflexivity|]. now rewrite IH. Qed.

Lemma substring_split (s : string) (k : nat) :
  k <= String.length s ->
  s = String.substring 0 k s +:+ String.substring k (String.length s - k) s.
Proof.
  revert k. induction s as [|a s IH]; intros k Hk; simpl in *.
  - destruct k; [reflexivity|lia].
  - destruct k as [|k]; simpl.
    + now rewrite substring_all.
    + change (String a s =
              String a (String.substring 0 k s +:+
                        String.substring k (String.length s - k) s)).
      f_equal. apply IH. lia.
Qed.

(** [endsWith] is "ends with": the string is some prefix followed by the
    suffix. *)
Lemma endsWith_spec (s suffix : string) :
  endsWith s suffix = true <-> exists pre, s = pre +:+ suffix.
Proof.
  unfold endsWith. rewrite andb_true_iff, Nat.leb_le, String.eqb_eq. split.
  - intros [Hle Hsub].
    exists (String.substring 0 (String.length s - String.length suffix) s).
    pose proof (substring_split s (String.length s - String.length suffix))
      as Hsplit.
    replace (String.length s - (String.length s - String.length suffix))
      with (String.length suffix) in Hsplit by lia.
    rewrite Hsub in Hsplit. apply Hsplit. lia.
  - intros [pre ->]. rewrite length_append. split; [lia|].
    replace (String.length pre + String.length suffix - String.length suffix)
      with (String.length pre) by lia.
    rewrite substring_skip. apply substring_all.
Qed.

End JsFacts.

(** ** SimpleResource: URLs, cache keys and shapes *)

Section ResourceFacts.
Context {FetchOptions Response : Type}.
Variable paramsToString : Obj -> string.
Abbreviation Class := (This.t FetchOptions Response).
Abbreviation extends := (SimpleResource.extends (FetchOptions:=FetchOptions)
                       (Response:=Response) paramsToString).

(** The test that guards [return urlParams.url]: an own property [url]
    that is a non-empty string. *)
Lemma url_guard (urlParams : Obj) :
  hasOwnProperty urlParams "url"
    && truthy (prop urlParams "url")
    && String.eqb (typeof (prop urlParams "url")) "string" = true <->
  exists s, ownProperty urlParams "url" = Some (VStr s) /\ s <> "".
Proof.
  rewrite hasOwnProperty_ownProperty. unfold prop.
  destruct (ownProperty urlParams "url") as [v|] eqn:E; simpl.
  - destruct v; simpl;
      try (rewrite ?andb_false_r; split; [discriminate|intros (s & [=] & _)]).
    rewrite andb_true_r. split.
    + intros Hs. exists s. split; [reflexivity|].
      intros ->. discriminate.
    + intros (s' & [= <-] & Hne).
      destruct (String.eqb_spec s ""); [contradiction|reflexivity].
  - split; [discriminate|intros (s & [=] & _)].
Qed.

(** C10: [SimpleResource.url(params)] by cases.  An own property [url]
    holding a non-empty string is returned unchanged, whatever [urlRoot]
    and [pk] are, so it alone decides the read-one cache key of a class
    that inherits [url].  Otherwise a defined [pk] gives [urlRoot], a
    ["/"] unless [urlRoot] already ends with one, and the pk; and an
    undefined [pk] gives [urlRoot]. *)
Theorem url_by_cases (this : This.Decl) (urlParams : Obj) :
  (forall s, ownProperty urlParams "url" = Some (VStr s) -> s <> "" ->
     SimpleResource.url this urlParams = s /\
     Shape.getFetchKey (SimpleResource.detailShape (extends this)) urlParams
       = "GET " +:+ s) /\
  ((forall s, ownProperty urlParams "url" = Some (VStr s) -> s = "") ->
     (forall id, This.pk this urlParams = Some id ->
        ((exists pre, This.urlRoot this = pre +:+ "/") ->
           SimpleResource.url this urlParams = This.urlRoot this +:+ id) /\
        (~ (exists pre, This.urlRoot this = pre +:+ "/") ->
           SimpleResource.url this urlParams
             = This.urlRoot this +:+ "/" +:+ id)) /\
     (This.pk this urlParams = None ->
        SimpleResource.url this urlParams = This.urlRoot this)).
Proof.
  split.
  - intros s Hs Hne.
    assert (SimpleResource.url this urlParams = s) as Hurl.
    { unfold SimpleResource.url.
      rewrite (proj2 (url_guard urlParams)) by eauto.
      unfold prop. now rewrite Hs. }
    split; [exact Hurl|]. simpl. now rewrite Hurl.
  - intros Hno.
    assert (hasOwnProperty urlParams "url"
              && truthy (prop urlParams "url")
              && String.eqb (typeof (prop urlParams "url")) "string" = false)
      as Hguard.
    { apply not_true_is_false. rewrite url_guard.
      intros (s & Hs & Hne). apply Hne, (Hno s Hs). }
    unfold SimpleResource.url. rewrite Hguard. split.
    + intros id ->. split.
      * intros Hends. apply endsWith_spec in Hends. now rewrite Hends.
      * intros Hends. rewrite <- endsWith_spec in Hends.
        apply not_true_is_false in Hends. now rewrite Hends.
    + now intros ->.
Qed.

(** C1: the cache key of each of the six shapes is the verb of the
    operation, a space, and the URL the class resolves [params] to:
    [url(params)] for detail, update, partial update and delete,
    [listUrl(params)] for list and create. *)
Theorem shape_fetch_keys (this : Class) (params : Obj) :
  Shape.getFetchKey (SimpleResource.detailShape this) params
    = "GET " +:+ This.url this params /\
  Shape.getFetchKey (SimpleResource.listShape this) params
    = "GET " +:+ This.listUrl this params /\
  Shape.getFetchKey (SimpleResource.createShape this) params
    = "POST " +:+ This.listUrl this params /\
  Shape.getFetchKey (SimpleResource.updateShape this) params
    = "PUT " +:+ This.url this params /\
  Shape.getFetchKey (SimpleResource.partialUpdateShape this) params
    = "PATCH " +:+ This.url this params /\
  Shape.getFetchKey (SimpleResource.deleteShape this) params
    = "DELETE " +:+ This.url this params.
Proof. unfold Shape.getFetchKey. repeat split. Qed.

(** C8: the list shape is a read whose schema is the array of the class,
    [[this]], where the detail shape, a read too, has the class itself. *)
Theorem listShape_schema (this : Class) :
  Shape.type (SimpleResource.listShape this) = Shape.read /\
  Shape.schema (SimpleResource.listShape this) = Shape.SchemaArray this /\
  Shape.type (SimpleResource.detailShape this) = Shape.read /\
  Shape.schema (SimpleResource.detailShape this) = Shape.SchemaThis this /\
  Shape.schema (SimpleResource.listShape this)
    <> Shape.schema (SimpleResource.detailShape this).
Proof.
  repeat split; simpl; discriminate.
Qed.

(** C9: the abstract [fetch] and [fetchResponse] throw
    [NotImplementedError] for every method, url and body: no request is
    issued and no promise is returned.  A class that overrides neither has
    exactly these, and so each of its shapes throws the same way. *)
Theorem fetch_not_implemented (method : This.Method) (url : string)
    (body : option Value) :
  SimpleResource.fetch method url body = ([], Throws NotImplementedError) /\
  SimpleResource.fetchResponse (Response:=Response) method url body
    = ([], Throws NotImplementedError) /\
  (forall requests p,
     SimpleResource.fetch method url body <> (requests, Returns p)) /\
  (forall requests (p : Promise Response),
     SimpleResource.fetchResponse method url body <> (requests, Returns p)) /\
  (forall d : This.Decl,
     This.fetch (extends d) method url body
       = ([], Throws NotImplementedError) /\
     This.fetchResponse (extends d) method url body
       = ([], Throws NotImplementedError)) /\
  (forall (d : This.Decl) (params : Obj),
     Forall
       (fun shape =>
          Shape.fetch shape params body = ([], Throws NotImplementedError))
       [SimpleResource.detailShape (extends d);
        SimpleResource.listShape (extends d);
        SimpleResource.createShape (extends d);
        SimpleResource.updateShape (extends d);
        SimpleResource.partialUpdateShape (extends d);
        SimpleResource.deleteShape (extends d)]).
Proof.
  repeat split; try discriminate.
  intros d params. repeat constructor.
Qed.

(** C2: a mutation's cache key never sees the request body.  For each
    of the four mutation shapes, two invocations with the same params and
    any two bodies have the same key; and the key is the verb and the
    resolved URL alone, so invocations, of any classes, params and bodies,
    that resolve to the same URL under the same verb collide.  The body
    goes to the class's [fetch] and nowhere else. *)
Theorem mutation_key_ignores_body (this this' : Class) (params params' : Obj)
    (b1 b2 : option Value) :
  Forall
    (fun shape =>
       (Shape.invoke shape params b1).1 = (Shape.invoke shape params b2).1)
    [SimpleResource.createShape this;
     SimpleResource.updateShape this;
     SimpleResource.partialUpdateShape this;
     SimpleResource.deleteShape this] /\
  (This.listUrl this params = This.listUrl this' params' ->
   (Shape.invoke (SimpleResource.createShape this) params b1).1
   = (Shape.invoke (SimpleResource.createShape this') params' b2).1) /\
  (This.url this params = This.url this' params' ->
   (Shape.invoke (SimpleResource.updateShape this) params b1).1
   = (Shape.invoke (SimpleResource.updateShape this') params' b2).1 /\
   (Shape.invoke (SimpleResource.partialUpdateShape this) params b1).1
   = (Shape.invoke (SimpleResource.partialUpdateShape this') params' b2).1 /\
   (Shape.invoke (SimpleResource.deleteShape this) params b1).1
   = (Shape.invoke (SimpleResource.deleteShape this') params' b2).1) /\
  ((Shape.invoke (SimpleResource.createShape this) params b1).2
   = This.fetch this This.Mpost (This.listUrl this params) b1 /\
   (Shape.invoke (SimpleResource.updateShape this) params b1).2
   = This.fetch this This.Mput (This.url this params) b1 /\
   (Shape.invoke (SimpleResource.partialUpdateShape this) params b1).2
   = This.fetch this This.Mpatch (This.url this params) b1).
Proof.
  split; [|split; [|split]].
  - repeat constructor.
  - intros Hurl. simpl. now rewrite Hurl.
  - intros Hurl. simpl. now rewrite Hurl.
  - repeat split.
Qed.

End ResourceFacts.

(** The three branches of [url] on [User], [Article] and [Settings]. *)
Lemma url_by_cases_witness :
  SimpleResource.url Examples.User [("url", VStr "/me"); ("id", VNum 5)]
    = "/me" /\
  Shape.getFetchKey
    (SimpleResource.detailShape
       (SimpleResource.extends (FetchOptions:=unit) (Response:=unit)
          Examples.queryString Examples.User))
    [("url", VStr "/me"); ("id", VNum 5)] = "GET /me" /\
  SimpleResource.url Examples.User [("id", VNum 5)] = "/users/5" /\
  SimpleResource.url Examples.Article [("id", VNum 5)] = "/articles/5" /\
  SimpleResource.url Examples.Settings [("url", VStr "")] = "/settings".
Proof.
  pose proof (url_by_cases (FetchOptions:=unit) (Response:=unit)
                Examples.queryString Examples.User
                [("url", VStr "/me"); ("id", VNum 5)]) as [Hown _].
  destruct (Hown "/me" eq_refl) as [Hurl Hkey]; [discriminate|].
  pose proof (url_by_cases (FetchOptions:=unit) (Response:=unit)
                Examples.queryString Examples.User [("id", VNum 5)])
    as [_ Hpk].
  destruct Hpk as [Hsome _]; [discriminate|].
  destruct (Hsome "5" eq_refl) as [_ Hslash].
  pose proof (url_by_cases (FetchOptions:=unit) (Response:=unit)
                Examples.queryString Examples.Article [("id", VNum 5)])
    as [_ Hart].
  destruct Hart as [Hsome' _]; [discriminate|].
  destruct (Hsome' "5" eq_refl) as [Hends _].
  pose proof (url_by_cases (FetchOptions:=unit) (Response:=unit)
                Examples.queryString Examples.Settings [("url", VStr "")])
    as [_ Hset].
  destruct Hset as [_ Hnone]; [intros s [= <-]; reflexivity|].
  split; [exact Hurl|]. split; [exact Hkey|]. split.
  - apply Hslash. intros Hex. apply endsWith_spec in Hex. discriminate.
  - split; [apply Hends; now exists "/articles"|]. now apply Hnone.
Defined.

(** Two updates of the same user with different bodies, one addressed by
    id and one by url: the requests differ, the keys collide. *)
Lemma mutation_key_ignores_body_witness :
  (Shape.invoke (SimpleResource.updateShape Examples.UserResource)
     [("id", VNum 5)] (Some (VObj [("name", VStr "Ada")]))).1
  = (Shape.invoke (SimpleResource.updateShape Examples.UserResource)
       [("url", VStr "/users/5")] (Some (VObj [("name", VStr "Bob")]))).1 /\
  (Shape.invoke (SimpleResource.updateShape Examples.UserResource)
     [("id", VNum 5)] (Some (VObj [("name", VStr "Ada")]))).2
  <> (Shape.invoke (SimpleResource.updateShape Examples.UserResource)
        [("url", VStr "/users/5")] (Some (VObj [("name", VStr "Bob")]))).2.
Proof.
  split.
  - apply (mutation_key_ignores_body
             Examples.UserResource Examples.UserResource
             [("id", VNum 5)] [("url", VStr "/users/5")]
             (Some (VObj [("name", VStr "Ada")]))
             (Some (VObj [("name", VStr "Bob")]))).
    reflexivity.
  - discriminate.
Defined.

(** ** Members: what a read sees after a write *)

Section Capability.
Import Normalizr.

Lemma eqb_decide (k k' : string) : String.eqb k k' = bool_decide (k = k').
Proof.
  destruct (String.eqb_spec k k') as [->|Hne].
  - now rewrite bool_decide_eq_true_2.
  - now rewrite bool_decide_eq_false_2.
Qed.

Lemma ownProperty_assocSet (k k' : string) (x : Value) (o : Obj) :
  ownProperty (assocSet k x o) k'
  = if decide (k = k') then Some x else ownProperty o k'.
Proof.
  induction o as [|[k0 v] o IH]; simpl.
  - rewrite eqb_decide. destruct (decide (k = k')) as [->|Hne].
    + now rewrite bool_decide_eq_true_2.
    + now rewrite bool_decide_eq_false_2.
  - destruct (String.eqb_spec k0 k) as [->|Hne]; simpl.
    + destruct (decide (k = k')) as [->|Hne'].
      * now rewrite String.eqb_refl.
      * destruct (String.eqb_spec k k'); [contradiction|reflexivity].
    + rewrite IH. destruct (String.eqb_spec k0 k') as [->|Hne'];
        [|reflexivity].
      now rewrite decide_False by congruence.
Qed.

Lemma ownProperty_assocDelete (k k' : string) (o : Obj) :
  ownProperty (assocDelete k o) k'
  = if decide (k = k') then None else ownProperty o k'.
Proof.
  unfold assocDelete.
  induction o as [|[k0 v] o IH].
  - simpl. now destruct (decide (k = k')).
  - rewrite filter_cons.
    destruct (decide (String.eqb (k0, v).1 k = false)) as [Hf|Hf];
      simpl in Hf.
    + apply String.eqb_neq in Hf. simpl. rewrite IH.
      destruct (String.eqb_spec k0 k') as [->|Hne]; [|reflexivity].
      now rewrite decide_False by congruence.
    + apply not_false_iff_true, String.eqb_eq in Hf. subst k0. rewrite IH.
      destruct (decide (k = k')) as [->|Hne]; [reflexivity|]. simpl.
      destruct (String.eqb_spec k k'); [contradiction|reflexivity].
Qed.

Lemma getMember_setMember (k k' : string) (x c : Value) :
  isContainer c = true ->
  getMember k' (setMember k x c)
  = if decide (k = k') then Some x else getMember k' c.
Proof.
  destruct c; try discriminate; intros _; simpl.
  - apply ownProperty_assocSet.
  - apply lookup_insert.
Qed.

Lemma getMember_deleteMember (k k' : string) (c : Value) :
  getMember k' (deleteMember k c)
  = if decide (k = k') then None else getMember k' c.
Proof.
  destruct c; simpl; try (now destruct (decide (k = k'))).
  - apply ownProperty_assocDelete.
  - apply lookup_delete.
Qed.

Lemma isContainer_setMember (k : string) (x c : Value) :
  isContainer (setMember k x c) = isContainer c.
Proof. now destruct c. Qed.

Lemma isContainer_deleteMember (k : string) (c : Value) :
  isContainer (deleteMember k c) = isContainer c.
Proof. now destruct c. Qed.

Lemma getMember_not_container (k : string) (c : Value) :
  isContainer c = false -> getMember k c = None.
Proof. now destruct c. Qed.

Lemma elem_of_keys (k : string) (o : Obj) :
  k ∈ keys o <-> is_Some (ownProperty o k).
Proof.
  unfold keys. induction o as [|[k0 v] o IH]; simpl.
  - split; [intros H; now apply elem_of_nil in H|intros [? [=]]].
  - rewrite elem_of_cons, IH.
    destruct (String.eqb_spec k0 k) as [->|Hne]; split; eauto.
    + intros [->|H]; [contradiction|exact H].
Qed.

(** The keys of a value are the keys under which it has a member. *)
Lemma elem_of_memberKeys (k : string) (c : Value) :
  k ∈ memberKeys c <-> is_Some (getMember k c).
Proof.
  destruct c; simpl;
    try (split; [intros H; now apply elem_of_nil in H|intros [? [=]]]).
  - apply elem_of_keys.
  - rewrite list_elem_of_fmap. split.
    + intros ([k0 v] & -> & Hin). apply elem_of_map_to_list in Hin. eauto.
    + intros [v Hv]. exists (k, v). split; [reflexivity|].
      now apply elem_of_map_to_list.
Qed.

End Capability.

(** ** Denormalization: missing entities and null members *)

Section Denormalize.
Import Normalizr.

Lemma keyOf_refKey (ty : string) (id : Value) (key : string) :
  keyOf id = Some key -> refKey ty id = Some key /\ isNull id = false.
Proof. destruct id; try discriminate; intros [= <-]; now split. Qed.

(** One member under an Entity schema, denormalized by hand. *)
Lemma denormalize_one_member (entities input : Value) (member : string)
    (s : Schema) (id : Value) :
  getMember member input = Some id -> isNull id = false ->
  denormalize input (Composite [(member, s)]) entities
  = (setMember member (unvisit s entities ∅ id).1 input,
     (unvisit s entities ∅ id).2).
Proof.
  intros Hid Hnull. unfold denormalize. simpl.
  unfold denormalizeMembers. simpl. now rewrite Hid, Hnull.
Qed.

(** C3: a composite with an Entity-typed member whose identifier has no
    entry in the entity table is not found, and the member is undefined;
    with an entry it is found and the member is the entity.  The
    identifier is looked up under its key as a string, [0] under ["0"]
    like any other: zero is an identifier, not an absence.  The input may
    be a plain object or an Immutable map, the table backed either way. *)
Theorem missing_entity_not_found (ty : string) (pk : Value -> option string)
    (nested : list (string * Schema)) (member : string) (id : Value)
    (key : string) (entities : Value) :
  keyOf id = Some key ->
  keyOf (VNum 0) = Some "0" /\
  (getEntity entities ty key = None ->
     denormalize (VObj [(member, id)])
       (Composite [(member, Entity ty pk nested)]) entities
     = (VObj [(member, VUndefined)], false) /\
     denormalize (VMap {[ member := id ]})
       (Composite [(member, Entity ty pk nested)]) entities
     = (VMap {[ member := VUndefined ]}, false)) /\
  (forall row, getEntity entities ty key = Some row ->
     denormalize (VObj [(member, id)])
       (Composite [(member, Entity ty pk [])]) entities
     = (VObj [(member, row)], true) /\
     denormalize (VMap {[ member := id ]})
       (Composite [(member, Entity ty pk [])]) entities
     = (VMap {[ member := row ]}, true)).
Proof.
  intros Hkey. destruct (keyOf_refKey ty id key Hkey) as [Href Hnull].
  split; [reflexivity|]. split.
  - intros Hnone. split.
    + rewrite (denormalize_one_member _ _ _ _ id); [|simpl|exact Hnull].
      * simpl. now rewrite Href, Hnone, String.eqb_refl.
      * now rewrite String.eqb_refl.
    + rewrite (denormalize_one_member _ _ _ _ id); [|simpl|exact Hnull].
      * simpl. now rewrite Href, Hnone, insert_singleton_eq.
      * apply lookup_singleton_eq.
  - intros row Hrow. split.
    + rewrite (denormalize_one_member _ _ _ _ id); [|simpl|exact Hnull].
      * simpl. rewrite Href, Hrow, String.eqb_refl.
        now rewrite bool_decide_eq_false_2 by set_solver.
      * now rewrite String.eqb_refl.
    + rewrite (denormalize_one_member _ _ _ _ id); [|simpl|exact Hnull].
      * simpl. rewrite Href, Hrow, insert_singleton_eq.
        now rewrite bool_decide_eq_false_2 by set_solver.
      * apply lookup_singleton_eq.
Qed.

(** A member that is null in the input is left alone by every step. *)
Lemma denormalizeMembers_skip_null {S : Type} (f : S -> Value -> Value * bool)
    (members1 members2 : list (string * S)) (k : string) (s : S)
    (input : Value) :
  getMember k input = Some VNull ->
  denormalizeMembers f (members1 ++ (k, s) :: members2) input
  = denormalizeMembers f (members1 ++ members2) input.
Proof.
  intros Hnull. unfold denormalizeMembers.
  rewrite !fold_left_app. simpl. now rewrite Hnull.
Qed.

(** C4: a null member of a composite is found and stays null, whatever
    schema the member has and whatever the entity table holds: for the
    input [{item: null}], plain or Immutable, the result is the input and
    found; and in any composite the schema given to a null member changes
    nothing of the result. *)
Theorem null_member_found (s : Schema) (entities : Value) :
  denormalize (VObj [("item", VNull)]) (Composite [("item", s)]) entities
  = (VObj [("item", VNull)], true) /\
  denormalize (fromJS (VObj [("item", VNull)])) (Composite [("item", s)])
    entities
  = (fromJS (VObj [("item", VNull)]), true) /\
  (forall members1 members2 k input,
     getMember k input = Some VNull ->
     denormalize input (Composite (members1 ++ (k, s) :: members2)) entities
     = denormalize input (Composite (members1 ++ members2)) entities).
Proof.
  split; [reflexivity|]. split; [reflexivity|].
  intros members1 members2 k input Hnull.
  apply denormalizeMembers_skip_null, Hnull.
Qed.

End Denormalize.

(** The calls of the test-suite: [{user: 1}] against an empty table, and
    [{user: 0}] against a table with user 0. *)
Lemma missing_entity_not_found_witness :
  (Normalizr.denormalize (VObj [("user", VNum 1)]) Examples.object (VObj [])).2
    = false /\
  (Normalizr.denormalize (VObj [("user", VNum 0)]) Examples.object
     Examples.entitiesZero).2 = true /\
  (Normalizr.denormalize (VMap {[ "user" := VNum 0 ]}) Examples.object
     (Normalizr.fromJS Examples.entitiesZero)).2 = true.
Proof.
  unfold Examples.object, Examples.userSchema.
  split; [|split].
  - destruct (missing_entity_not_found "user" (Normalizr.idAttribute "id") []
                "user" (VNum 1) "1" (VObj []) eq_refl) as (_ & Hmiss & _).
    destruct (Hmiss eq_refl) as [-> _]. reflexivity.
  - destruct (missing_entity_not_found "user" (Normalizr.idAttribute "id") []
                "user" (VNum 0) "0" Examples.entitiesZero eq_refl)
      as (_ & _ & Hzero).
    destruct (Hzero _ eq_refl) as [-> _]. reflexivity.
  - destruct (missing_entity_not_found "user" (Normalizr.idAttribute "id") []
                "user" (VNum 0) "0" (Normalizr.fromJS Examples.entitiesZero)
                eq_refl) as (_ & _ & Hzero).
    destruct (Hzero _ eq_refl) as [_ ->]. reflexivity.
Defined.

(** The test's schema and table: [item] is an Object schema with a user
    inside, and beside the null [item] sits a null [user]. *)
Lemma null_member_found_witness :
  Normalizr.denormalize (VObj [("item", VNull)])
    (Normalizr.Composite [("item", Examples.object)]) Examples.entities
  = (VObj [("item", VNull)], true) /\
  Normalizr.denormalize (VObj [("user", VNull); ("id", VNum 7)])
    (Normalizr.Composite [("user", Examples.object)]) Examples.entities
  = (VObj [("user", VNull); ("id", VNum 7)], true).
Proof.
  destruct (null_member_found Examples.object Examples.entities)
    as (Hitem & _ & Hskip).
  split; [exact Hitem|].
  etransitivity;
    [exact (Hskip [] [] "user" (VObj [("user", VNull); ("id", VNum 7)])
              eq_refl)
    |reflexivity].
Defined.

(** ** Normalization: null and undefined members are dropped *)

Section Normalize.
Import Normalizr.

Lemma getMember_setMember_ne (k k' : string) (x c : Value) :
  k <> k' -> getMember k' (setMember k x c) = getMember k' c.
Proof.
  intros Hne. destruct (isContainer c) eqn:Hc.
  - rewrite getMember_setMember by exact Hc. now rewrite decide_False.
  - rewrite !getMember_not_container; [reflexivity|exact Hc|].
    now rewrite isContainer_setMember.
Qed.

Lemma nonNullish_idemp (member : option Value) :
  nonNullish (nonNullish member) = nonNullish member.
Proof.
  destruct member as [v|]; [|reflexivity]. simpl.
  destruct (nullish v) eqn:Hv; [reflexivity|]. simpl. now rewrite Hv.
Qed.

(** One step of the drop, seen from a key. *)
Lemma getMember_drop_step (k k0 : string) (acc : Value) :
  getMember k
    (match getMember k0 acc with
     | Some v => if nullish v then deleteMember k0 acc else acc
     | None => acc
     end)
  = if decide (k0 = k) then nonNullish (getMember k acc) else getMember k acc.
Proof.
  destruct (decide (k0 = k)) as [->|Hne].
  - destruct (getMember k acc) as [v|] eqn:Hv; simpl; [|exact Hv].
    destruct (nullish v).
    + rewrite getMember_deleteMember. now rewrite decide_True.
    + exact Hv.
  - destruct (getMember k0 acc) as [v|]; [|reflexivity].
    destruct (nullish v); [|reflexivity].
    rewrite getMember_deleteMember. now rewrite decide_False.
Qed.

Lemma getMember_drop_fold (k : string) (ks : list string) (acc : Value) :
  getMember k
    (fold_left
       (fun acc k0 =>
          match getMember k0 acc with
          | Some v => if nullish v then deleteMember k0 acc else acc
          | None => acc
          end) ks acc)
  = if decide (k ∈ ks) then nonNullish (getMember k acc)
    else getMember k acc.
Proof.
  revert acc. induction ks as [|k0 ks IH]; intros acc.
  - reflexivity.
  - cbn [fold_left]. rewrite IH, getMember_drop_step.
    destruct (decide (k0 = k)) as [->|Hne].
    + rewrite (decide_True (P:=k ∈ k :: ks)) by apply list_elem_of_here.
      destruct (decide (k ∈ ks)); [apply nonNullish_idemp|reflexivity].
    + destruct (decide (k ∈ ks)) as [Hin|Hnin].
      * now rewrite decide_True by (now apply list_elem_of_further).
      * rewrite decide_False; [reflexivity|].
        intros [->|Hin]%elem_of_cons; [now apply Hne|now apply Hnin].
Qed.

(** What the drop leaves under each key. *)
Lemma getMember_dropNullish (k : string) (ks : list string) (obj : Value) :
  getMember k (dropNullish ks obj)
  = if decide (k ∈ ks) then nonNullish (getMember k obj)
    else getMember k obj.
Proof. apply getMember_drop_fold. Qed.

Lemma getMember_dropNullish_all (k : string) (obj : Value) :
  getMember k (dropNullish (memberKeys obj) obj)
  = nonNullish (getMember k obj).
Proof.
  rewrite getMember_dropNullish.
  destruct (decide (k ∈ memberKeys obj)) as [Hin|Hnin]; [reflexivity|].
  destruct (getMember k obj) as [v|] eqn:Hv; [|reflexivity].
  exfalso. apply Hnin, elem_of_memberKeys. rewrite Hv. eauto.
Qed.

Lemma nonNullish_Some (member : option Value) (v : Value) :
  nonNullish member = Some v -> nullish v = false.
Proof.
  destruct member as [w|]; [|discriminate]. simpl.
  destruct (nullish w) eqn:Hw; [discriminate|]. now intros [= <-].
Qed.

(** A member no schema names is not touched by the members' loop. *)
Lemma normalizeMembers_frame {S : Type} (f : S -> Value -> Norm Value)
    (members : list (string * S)) (input : Value) (k : string)
    (entities obj entities' : Value) :
  k ∉ members.*1 ->
  normalizeMembers f members input entities = Returns (obj, entities') ->
  getMember k obj = getMember k input.
Proof.
  unfold normalizeMembers.
  assert (forall (acc : Norm Value),
            (forall e o e', acc e = Returns (o, e') ->
                            getMember k o = getMember k input) ->
            k ∉ members.*1 ->
            forall e o e',
              fold_left
                (fun acc ks =>
                   bind acc (fun obj =>
                     match getMember ks.1 input with
                     | None => ret obj
                     | Some x =>
                         bind (f ks.2 x)
                           (fun x' => ret (setMember ks.1 x' obj))
                     end))
                members acc e = Returns (o, e') ->
              getMember k o = getMember k input) as Hfold.
  { induction members as [|[k0 s] members IH]; intros acc Hacc Hk e o e'.
    - simpl. apply Hacc.
    - simpl. apply IH.
      + intros e1 o1 e1'. unfold bind at 1.
        destruct (acc e1) as [[o0 e0]|] eqn:Hacc0; [|discriminate].
        simpl. destruct (getMember k0 input) as [x|].
        * unfold bind, ret.
          destruct (f s x e0) as [[x' e2]|]; [|discriminate].
          intros [= <- <-]. rewrite getMember_setMember_ne.
          -- eapply Hacc, Hacc0.
          -- intros ->. apply Hk. simpl. apply list_elem_of_here.
        * unfold ret. intros [= <- <-]. eapply Hacc, Hacc0.
      + intros Hin. apply Hk. simpl. now apply list_elem_of_further. }
  intros Hk Hrun. eapply Hfold; [|exact Hk|exact Hrun].
  unfold ret. now intros e o e' [= <- <-].
Qed.

(** C6: normalizing a Composite or a Mapping drops every member whose
    normalized value is null or undefined, however the member schemas
    normalize ([f]).  With [obj] holding each member's normalized value,
    a member the Composite has a schema for is in the result with that
    value, unless the value is null or undefined: then its key is absent.
    A member the Composite has no schema for is in the result as it is in
    the input.  Every value of a Mapping is treated like a member with a
    schema, so no member of a Mapping's result is null or undefined. *)
Theorem normalize_drops_nullish (input entities : Value) :
  (forall members,
     normalize (Composite members) input
     = normalizeComposite (fun s => normalize s) members input) /\
  (forall member,
     normalize (Mapping member) input
     = normalizeMapping (normalize member) input) /\
  (forall (S : Type) (f : S -> Value -> Norm Value) members result entities',
     normalizeComposite f members input entities
       = Returns (result, entities') ->
     exists obj,
       normalizeMembers f members input entities = Returns (obj, entities') /\
       (forall k, k ∈ members.*1 ->
                  getMember k result = nonNullish (getMember k obj) /\
                  (forall v, getMember k obj = Some v -> nullish v = true ->
                             k ∉ memberKeys result) /\
                  (forall v, getMember k result = Some v ->
                             nullish v = false)) /\
       (forall k, k ∉ members.*1 ->
                  getMember k result = getMember k input)) /\
  (forall (f : Value -> Norm Value) result entities',
     normalizeMapping f input entities = Returns (result, entities') ->
     exists obj,
       normalizeValues f input entities = Returns (obj, entities') /\
       (forall k, getMember k result = nonNullish (getMember k obj)) /\
       (forall k v, getMember k obj = Some v -> nullish v = true ->
                    k ∉ memberKeys result) /\
       (forall k v, getMember k result = Some v -> nullish v = false)).
Proof.
  split; [reflexivity|]. split; [reflexivity|]. split.
  - intros S f members result entities' Hrun.
    unfold normalizeComposite, bind in Hrun.
    destruct (normalizeMembers f members input entities)
      as [[obj e]|] eqn:Hobj; [|discriminate].
    unfold ret in Hrun. injection Hrun as <- <-.
    exists obj. split; [reflexivity|]. split.
    + intros k Hk.
      assert (getMember k (dropNullish members.*1 obj)
              = nonNullish (getMember k obj)) as Hget.
      { rewrite getMember_dropNullish. now rewrite decide_True. }
      split; [exact Hget|]. split.
      * intros v Hv Hnull. rewrite elem_of_memberKeys, Hget, Hv. simpl.
        rewrite Hnull. intros [? [=]].
      * intros v. rewrite Hget. apply nonNullish_Some.
    + intros k Hk. rewrite getMember_dropNullish.
      rewrite decide_False by exact Hk.
      exact (normalizeMembers_frame _ _ _ _ _ _ _ Hk Hobj).
  - intros f result entities' Hrun.
    unfold normalizeMapping, bind in Hrun.
    destruct (normalizeValues f input entities)
      as [[obj e]|] eqn:Hobj; [|discriminate].
    unfold ret in Hrun. injection Hrun as <- <-.
    exists obj. split; [reflexivity|]. split; [|split].
    + intros k. apply getMember_dropNullish_all.
    + intros k v Hv Hnull.
      rewrite elem_of_memberKeys, getMember_dropNullish_all, Hv. simpl.
      rewrite Hnull. intros [? [=]].
    + intros k v. rewrite getMember_dropNullish_all. apply nonNullish_Some.
Qed.

End Normalize.

(** A payload whose [foo], a member with a schema, is null: it is gone
    from the result, while [qux] and [n], which have no schema, are there
    as they were.  And the payload of the test, whose [foo] is a record
    without an id: with a member normalizer that gives undefined for it,
    [foo] is gone. *)
Lemma normalize_drops_nullish_witness :
  Normalizr.normalizePayload Examples.payload Examples.users
  = Returns
      (VObj [("bar", VRef "user" "1"); ("qux", VUndefined); ("n", VNum 3)],
       VObj [("user", VObj [("1", VObj [("id", VStr "1")])])]) /\
  ("foo" ∉ Normalizr.memberKeys
             (VObj [("bar", VRef "user" "1"); ("qux", VUndefined);
                    ("n", VNum 3)])) /\
  Normalizr.getMember "qux"
    (VObj [("bar", VRef "user" "1"); ("qux", VUndefined); ("n", VNum 3)])
  = Normalizr.getMember "qux" Examples.payload /\
  Normalizr.normalizeComposite (fun _ : unit => Examples.idOrUndefined)
    [("foo", tt); ("bar", tt); ("baz", tt)]
    (VObj [("foo", VObj []); ("bar", VObj [("id", VStr "1")])]) (VObj [])
  = Returns (VObj [("bar", VStr "1")], VObj []) /\
  ("foo" ∉ Normalizr.memberKeys (VObj [("bar", VStr "1")])).
Proof.
  split; [reflexivity|].
  destruct (normalize_drops_nullish Examples.payload (VObj []))
    as (_ & _ & Hcomposite & _).
  destruct (Hcomposite Normalizr.Schema (fun s => Normalizr.normalize s)
              [("foo", Examples.userSchema); ("bar", Examples.userSchema);
               ("baz", Examples.userSchema)]
              (VObj [("bar", VRef "user" "1"); ("qux", VUndefined);
                     ("n", VNum 3)])
              (VObj [("user", VObj [("1", VObj [("id", VStr "1")])])])
              eq_refl)
    as (obj & Hobj & Hdrop & Hframe).
  injection Hobj as <-.
  split; [|split].
  - destruct (Hdrop "foo") as (_ & Habsent & _).
    + simpl. apply list_elem_of_here.
    + now apply (Habsent VNull).
  - apply (Hframe "qux"). simpl. intros Hin.
    repeat (apply elem_of_cons in Hin as [[=]|Hin]).
    now apply elem_of_nil in Hin.
  - split; [reflexivity|].
    destruct (normalize_drops_nullish
                (VObj [("foo", VObj []); ("bar", VObj [("id", VStr "1")])])
                (VObj []))
      as (_ & _ & Htest & _).
    destruct (Htest unit (fun _ : unit => Examples.idOrUndefined)
                [("foo", tt); ("bar", tt); ("baz", tt)]
                (VObj [("bar", VStr "1")]) (VObj []) eq_refl)
      as (obj' & Hobj' & Hdrop' & _).
    injection Hobj' as <-.
    destruct (Hdrop' "foo") as (_ & Habsent & _).
    + simpl. apply list_elem_of_here.
    + now apply (Habsent VUndefined).
Defined.

(** ** The two backings: plain and Immutable *)

Section Backing.
Import Normalizr.

(** *** Induction on values *)





(** *** [fromJS] commutes with the member operations *)










(** *** Values that hold the same data *)



Lemma sameData_trans (u v w : Value) :
  sameData u v -> sameData v w -> sameData u w.
Proof. unfold sameData. congruence. Qed.











End Backing.

(** ** Denormalization does not depend on the backing *)

Section Independence.
Import Normalizr.



Local Abbreviation valuesLoop f input ks acc :=
  (fold_left
     (fun acc k0 =>
        match getMember k0 input with
        | None => acc
        | Some x => let r := f x in (setMember k0 r.1 acc.1, acc.2 && r.2)
        end) ks acc).













End Independence.



(** ** The shapes of a class, run *)

Section Runs.
Import Examples.

Example detail_key :
  Shape.getFetchKey (SimpleResource.detailShape UserResource)
    [("id", VNum 5)] = "GET /users/5".
Proof. reflexivity. Qed.

Example list_key :
  Shape.getFetchKey (SimpleResource.listShape UserResource)
    [("page", VNum 2); ("sort", VStr "name")]
  = "GET /users?page=2&sort=name".
Proof. reflexivity. Qed.

Example create_key_no_params :
  Shape.getFetchKey (SimpleResource.createShape UserResource) []
  = "POST /users".
Proof. reflexivity. Qed.

Example delete_run :
  Shape.fetch (SimpleResource.deleteShape UserResource) [("id", VNum 5)] None
  = ([This.mkRequest This.Mdelete "/users/5" None],
     Returns (Fulfilled (VObj [("id", VNum 5)]))).
Proof. reflexivity. Qed.

Example abstract_detail_run :
  Shape.fetch
    (SimpleResource.detailShape
       (SimpleResource.extends (FetchOptions:=unit) (Response:=unit)
          queryString User))
    [("id", VNum 5)] None
  = ([], Throws NotImplementedError).
Proof. reflexivity. Qed.

Example cyclic_entity_found :
  Normalizr.denormalize (VNum 1)
    (Normalizr.Entity "user" (Normalizr.idAttribute "id")
       [("friend",
         Normalizr.Entity "user" (Normalizr.idAttribute "id")
           [("friend",
             Normalizr.Entity "user" (Normalizr.idAttribute "id") [])])])
    (VObj [("user", VObj [("1", VObj [("id", VNum 1);
                                       ("friend", VNum 1)])])])
  = (VObj [("id", VNum 1);
           ("friend", VObj [("id", VNum 1); ("friend", VNum 1)])], true).
Proof. reflexivity. Qed.

Example round_trip :
  (let '(result, table) :=
     match Normalizr.normalizePayload
             (VObj [("user", VObj [("id", VNum 1); ("name", VStr "Nacho")])])
             object with
     | Returns r => r
     | Throws _ => (VUndefined, VUndefined)
     end in
   (result, Normalizr.denormalize result object table))
  = (VObj [("user", VRef "user" "1")],
     (VObj [("user", VObj [("id", VNum 1); ("name", VStr "Nacho")])], true)).
Proof. reflexivity. Qed.

End Runs.

(** ** What the schema of the delete shape does to the table *)

Section Tombstone.
Import Normalizr.
Context {FetchOptions Response : Type}.

(** Writing a row into a table leaves it under its (type, key), and
    leaves every other entry as it was. *)
Lemma getEntity_setEntity (ty key : string) (row entities : Value) :
  isContainer entities = true ->
  (forall rows, getMember ty entities = Some rows ->
                isContainer rows = true) ->
  exists entities',
    setEntity ty key row entities = Returns (tt, entities') /\
    getEntity entities' ty key = Some row /\
    (forall ty' key', (ty', key') <> (ty, key) ->
       getEntity entities' ty' key' = getEntity entities ty' key').
Proof.
  intros Htable Hrows. eexists. split; [reflexivity|].
  assert (isContainer (default (VObj []) (getMember ty entities)) = true)
    as Hdefault.
  { destruct (getMember ty entities) as [rows|] eqn:Hty; simpl;
      [now apply Hrows|reflexivity]. }
  unfold getEntity. split.
  - rewrite getMember_setMember, decide_True by easy. simpl.
    now rewrite getMember_setMember, decide_True by easy.
  - intros ty' key' Hne. destruct (decide (ty = ty')) as [<-|Hty].
    + rewrite getMember_setMember, decide_True by easy. simpl.
      rewrite getMember_setMember_ne by congruence.
      now destruct (getMember ty entities).
    + now rewrite getMember_setMember_ne.
Qed.

(** C7: the delete shape is a mutation whose schema is the class wrapped
    in [schemas.Delete], not the class itself (the schema of the other
    three mutations) nor an array of it; and normalizing its result
    removes the entry rather than merging into it.  When the class's
    delete request is fulfilled, the shape's result is its params; under
    the shape's schema they leave, in any table, the tombstone under the
    (type, key) of the entity, whatever was there, and every other entry
    as it was; under the class itself, the schema of an update, the same
    payload is merged into the entry that is there. *)
Theorem deleteShape_schema (this : This.t FetchOptions Response) :
  Shape.type (SimpleResource.deleteShape this) = Shape.mutate /\
  Shape.schema (SimpleResource.deleteShape this) = Shape.SchemaDelete this /\
  Shape.schema (SimpleResource.deleteShape this) <> Shape.SchemaThis this /\
  Shape.schema (SimpleResource.deleteShape this) <> Shape.SchemaArray this /\
  Shape.schema (SimpleResource.createShape this) = Shape.SchemaThis this /\
  Shape.schema (SimpleResource.updateShape this) = Shape.SchemaThis this /\
  Shape.schema (SimpleResource.partialUpdateShape this)
    = Shape.SchemaThis this /\
  forall (params : Obj) (key : string) (body : option Value)
         (requests : list This.Request) (payload entities : Value),
    let ty := SimpleResource.key (This.decl this) in
    This.pk (This.decl this) params = Some key ->
    This.fetch this This.Mdelete (This.url this params) None
      = (requests, Returns (Fulfilled payload)) ->
    isContainer entities = true ->
    (forall rows, getMember ty entities = Some rows ->
                  isContainer rows = true) ->
    exists result entities',
      Shape.fetch (SimpleResource.deleteShape this) params body
        = (requests, Returns (Fulfilled result)) /\
      result = VObj params /\
      normalize (toSchema (Shape.schema (SimpleResource.deleteShape this)))
        result entities
        = Returns (VRef ty key, entities') /\
      getEntity entities' ty key = Some VDeleted /\
      (forall ty' key', (ty', key') <> (ty, key) ->
         getEntity entities' ty' key' = getEntity entities ty' key') /\
      (forall old, getEntity entities ty key = Some old ->
         isContainer old = true ->
         exists merged,
           normalize
             (toSchema (Shape.schema (SimpleResource.updateShape this)))
             result entities
             = Returns (VRef ty key, merged) /\
           getEntity merged ty key = Some (mergeRecord old result)).
Proof.
  do 7 (split; [simpl; first [reflexivity|discriminate]|]).
  intros params key body requests payload entities ty Hpk Hfetch Htable
    Hrows.
  destruct (getEntity_setEntity ty key VDeleted entities Htable Hrows)
    as (entities' & Hset & Hentry & Hframe).
  exists (VObj params), entities'. split; [|split; [reflexivity|]].
  { simpl. now rewrite Hfetch. }
  split; [|split; [exact Hentry|split; [exact Hframe|]]].
  - simpl. rewrite Hpk. unfold bind. fold ty. now rewrite Hset.
  - intros old Hold Hcontainer.
    destruct (getEntity_setEntity ty key (mergeRecord old (VObj params))
                entities Htable Hrows) as (merged & Hmerge & Hmerged & _).
    exists merged. split; [|exact Hmerged].
    simpl. rewrite Hpk. unfold bind, addEntity. cbv zeta.
    change (normalizeMembers (fun s' => normalize s') [] (VObj params)
              entities) with (Returns (VObj params, entities)).
    fold ty. cbv beta iota. rewrite Hold, Hcontainer. now rewrite Hmerge.
Qed.

End Tombstone.

(** A table with two users; user 5 is deleted and user 6 stays. *)
Lemma deleteShape_schema_witness :
  exists entities',
    Normalizr.normalize
      (Normalizr.toSchema
         (Shape.schema (SimpleResource.deleteShape Examples.UserResource)))
      (VObj [("id", VNum 5)])
      (VObj [("/users",
              VObj [("5", VObj [("id", VNum 5); ("name", VStr "Ada")]);
                    ("6", VObj [("id", VNum 6)])])])
    = Returns (VRef "/users" "5", entities') /\
    Normalizr.getEntity entities' "/users" "5" = Some VDeleted /\
    Normalizr.getEntity entities' "/users" "6" = Some (VObj [("id", VNum 6)]).
Proof.
  destruct (deleteShape_schema Examples.UserResource)
    as (_ & _ & _ & _ & _ & _ & _ & Hdelete).
  destruct (Hdelete [("id", VNum 5)] "5" None
              [This.mkRequest This.Mdelete "/users/5" None] VNull
              (VObj [("/users",
                      VObj [("5", VObj [("id", VNum 5); ("name", VStr "Ada")]);
                            ("6", VObj [("id", VNum 6)])])])
              eq_refl eq_refl eq_refl)
    as (result & entities' & _ & -> & Hnormalize & Hentry & Hframe & _).
  { intros rows [= <-]. reflexivity. }
  exists entities'. split; [exact Hnormalize|]. split; [exact Hentry|].
  rewrite Hframe; [reflexivity|discriminate].
Defined.

(** ** A union, by attribute *)

Section Unions.
Import Normalizr Examples.

Example union_by_type :
  denormalize owner byType entities
  = (VObj [("type", VStr "owner");
           ("user", VObj [("id", VNum 1); ("name", VStr "Nacho")])], true).
Proof. reflexivity. Qed.

Example union_no_branch :
  normalizePayload (VObj [("type", VStr "stranger")]) byType
  = Throws SchemaError.
Proof. reflexivity. Qed.

End Unions.

(** * More of SimpleResource *)

Section StringFacts.

Lemma append_assoc (s1 s2 s3 : string) :
  (s1 +:+ s2) +:+ s3 = s1 +:+ (s2 +:+ s3).
Proof.
  induction s1 as [|a s1 IH]; [reflexivity|].
  change (String a ((s1 +:+ s2) +:+ s3) = String a (s1 +:+ (s2 +:+ s3))).
  now f_equal.
Qed.

Lemma prefix_append (s t : string) : String.prefix s (s +:+ t) = true.
Proof.
  induction s as [|a s IH]; simpl.
  - now destruct t.
  - destruct (Ascii.ascii_dec a a); [exact IH|contradiction].
Qed.

Lemma prefix_refl (s : string) : String.prefix s s = true.
Proof.
  induction s as [|a s IH]; simpl; [reflexivity|].
  destruct (Ascii.ascii_dec a a); [exact IH|contradiction].
Qed.

Lemma verb_inj (m1 m2 : This.Method) : Key.verb m1 = Key.verb m2 -> m1 = m2.
Proof. destruct m1, m2; simpl; intros [=]; reflexivity. Qed.

(** A verb, a space and a URL read back as the verb and the URL, spaces
    in the URL or not. *)
Lemma split_verb (m : This.Method) (u : string) :
  Key.split (Key.verb m +:+ " " +:+ u) = (Key.verb m, u).
Proof. now destruct m. Qed.

End StringFacts.

Section MoreResourceFacts.
Context {FetchOptions Response : Type}.
Variable paramsToString : Obj -> string.
Abbreviation Class := (This.t FetchOptions Response).
Abbreviation extends := (SimpleResource.extends (FetchOptions:=FetchOptions)
                       (Response:=Response) paramsToString).

Lemma table_keys (this : Class) (params : Obj) :
  Forall
    (fun row =>
       Shape.getFetchKey row.1.1.1 params
       = Key.verb row.1.1.2 +:+ " " +:+ row.1.2)
    (Key.table this params).
Proof. repeat constructor. Qed.

(** X1: a cache key determines the method and the URL of its request.
    Each of the six keys reads back, split at its first space, as the
    method in upper case and the resolved URL; so two keys, of any two
    shapes of any two classes, are equal exactly when their methods and
    their resolved URLs are. *)
Theorem fetch_key_reads_back (this this' : Class) (params params' : Obj) :
  Forall
    (fun row =>
       Key.split (Shape.getFetchKey row.1.1.1 params)
       = (Key.verb row.1.1.2, row.1.2))
    (Key.table this params) /\
  Forall
    (fun row =>
       Forall
         (fun row' =>
            Shape.getFetchKey row.1.1.1 params
            = Shape.getFetchKey row'.1.1.1 params'
            <-> row.1.1.2 = row'.1.1.2 /\ row.1.2 = row'.1.2)
         (Key.table this' params'))
    (Key.table this params).
Proof.
  split.
  - eapply Forall_impl; [apply table_keys|].
    intros row ->. apply split_verb.
  - eapply Forall_impl; [apply table_keys|]. intros row Hrow.
    eapply Forall_impl; [apply table_keys|]. intros row' Hrow'.
    rewrite Hrow, Hrow'. split.
    + intros Heq. apply (f_equal Key.split) in Heq.
      rewrite !split_verb in Heq. injection Heq as Hverb Hurl.
      split; [now apply verb_inj|exact Hurl].
    + now intros [-> ->].
Qed.

(** X2: the request of a shape is the one its key names.  Each shape's
    [fetch] issues the requests of one call of the class's [fetch], with
    the method and the URL of its key; create, update and partial update
    hand it the body, detail, list and delete hand it none; and but for
    delete the call's outcome is the shape's. *)
Theorem shape_requests_what_its_key_names (this : Class) (params : Obj)
    (body : option Value) :
  Forall
    (fun row : Shape.FetchShape FetchOptions Response
               * This.Method * string * bool =>
       Shape.getFetchKey row.1.1.1 params
       = Key.verb row.1.1.2 +:+ " " +:+ row.1.2 /\
       (Shape.fetch row.1.1.1 params body).1
       = (This.fetch this row.1.1.2 row.1.2
            (if row.2 then body else None)).1 /\
       (row.1.1.2 <> This.Mdelete ->
        Shape.fetch row.1.1.1 params body
        = This.fetch this row.1.1.2 row.1.2 (if row.2 then body else None)))
    (Key.table this params).
Proof.
  repeat constructor; simpl; try congruence.
  now destruct (This.fetch this This.Mdelete (This.url this params) None).
Qed.

(** X3: the delete shape resolves with its params.  Its [fetch] makes
    the class's delete request to [url(params)] without a body, whatever
    body it is given; when that request is fulfilled, with whatever
    payload, the result is fulfilled with [params]; a rejection and a
    thrown error come through as they are. *)
Theorem delete_resolves_with_params (this : Class) (params : Obj)
    (body : option Value) :
  Shape.fetch (SimpleResource.deleteShape this) params body
  = Shape.fetch (SimpleResource.deleteShape this) params None /\
  (forall requests payload,
     This.fetch this This.Mdelete (This.url this params) None
       = (requests, Returns (Fulfilled payload)) ->
     Shape.fetch (SimpleResource.deleteShape this) params body
       = (requests, Returns (Fulfilled (VObj params)))) /\
  (forall requests e,
     This.fetch this This.Mdelete (This.url this params) None
       = (requests, Returns (Rejected e)) ->
     Shape.fetch (SimpleResource.deleteShape this) params body
       = (requests, Returns (Rejected e))) /\
  (forall requests e,
     This.fetch this This.Mdelete (This.url this params) None
       = (requests, Throws e) ->
     Shape.fetch (SimpleResource.deleteShape this) params body
       = (requests, Throws e)).
Proof.
  split; [reflexivity|].
  repeat split; intros requests ? Hfetch; simpl; now rewrite Hfetch.
Qed.

(** X4: a trailing slash on [urlRoot] does not change the URL of an
    entity.  For params with a pk, [url] with [urlRoot] and with
    [urlRoot] followed by ["/"] is the same, provided [urlRoot] does not
    itself end with a slash. *)
Theorem url_trailing_slash (name root : string) (pk : Obj -> option string)
    (urlParams : Obj) (id : string) :
  pk urlParams = Some id ->
  endsWith root "/" = false ->
  SimpleResource.url (This.mkDecl name (root +:+ "/") pk) urlParams
  = SimpleResource.url (This.mkDecl name root pk) urlParams /\
  (hasOwnProperty urlParams "url" = false ->
   SimpleResource.url (This.mkDecl name root pk) urlParams
   = root +:+ "/" +:+ id).
Proof.
  intros Hpk Hroot. unfold SimpleResource.url. simpl.
  rewrite Hpk, Hroot.
  rewrite (proj2 (endsWith_spec (root +:+ "/") "/")) by (now exists root).
  rewrite append_assoc. split.
  - reflexivity.
  - now intros ->.
Qed.

(** Without an own [url] that is a non-empty string, [url] is built from
    [urlRoot] and the pk. *)
Lemma url_from_pk (this : This.Decl) (urlParams : Obj) :
  (forall s, ownProperty urlParams "url" = Some (VStr s) -> s = "") ->
  SimpleResource.url this urlParams
  = match This.pk this urlParams with
    | Some id =>
        if endsWith (This.urlRoot this) "/"
        then This.urlRoot this +:+ id
        else This.urlRoot this +:+ "/" +:+ id
    | None => This.urlRoot this
    end.
Proof.
  intros Hno. unfold SimpleResource.url.
  assert (hasOwnProperty urlParams "url"
            && truthy (prop urlParams "url")
            && String.eqb (typeof (prop urlParams "url")) "string" = false)
    as ->; [|reflexivity].
  apply not_true_is_false. rewrite url_guard.
  intros (s & Hs & Hne). apply Hne, (Hno s Hs).
Qed.

(** X5: the URLs a class builds start with its [urlRoot].  [listUrl]
    always does, and is [urlRoot] itself for the empty object; [url] does
    unless the params carry their own [url], a non-empty string. *)
Theorem urls_start_with_urlRoot (this : This.Decl) (params : Obj) :
  String.prefix (This.urlRoot this)
    (SimpleResource.listUrl paramsToString this params) = true /\
  SimpleResource.listUrl paramsToString this [] = This.urlRoot this /\
  ((forall s, ownProperty params "url" = Some (VStr s) -> s = "") ->
   String.prefix (This.urlRoot this) (SimpleResource.url this params) = true).
Proof.
  split; [|split].
  - unfold SimpleResource.listUrl.
    destruct (negb _); [apply prefix_append|apply prefix_refl].
  - reflexivity.
  - intros Hno.
    rewrite (url_from_pk this params Hno).
    destruct (This.pk this params) as [id|]; [|apply prefix_refl].
    destruct (endsWith (This.urlRoot this) "/"); apply prefix_append.
Qed.

End MoreResourceFacts.

Section CollisionAndInstances.
Context {FetchOptions Response : Type}.
Variable paramsToString : Obj -> string.
Abbreviation Class := (This.t FetchOptions Response).
Abbreviation extends := (SimpleResource.extends (FetchOptions:=FetchOptions)
                       (Response:=Response) paramsToString).

(** X6: read-one and read-many can share a cache key.  For a class that
    inherits [url] and [listUrl], params without a pk (and without a [url]
    of their own) give the detail shape the key of the list shape with no
    search params: both are ["GET "] and [urlRoot]. *)
Theorem detail_key_can_be_list_key (d : This.Decl) (params : Obj) :
  This.pk d params = None ->
  (forall s, ownProperty params "url" = Some (VStr s) -> s = "") ->
  Shape.getFetchKey (SimpleResource.detailShape (extends d)) params
  = Shape.getFetchKey (SimpleResource.listShape (extends d)) [] /\
  Shape.getFetchKey (SimpleResource.detailShape (extends d)) params
  = "GET " +:+ This.urlRoot d.
Proof.
  intros Hpk Hno. simpl. rewrite (url_from_pk d params Hno), Hpk.
  now split.
Qed.

(** X7: the url set on an instance is the url read from it.  After
    [instance.url = u] the getter gives [u], whatever the class, the pk
    and the other properties are, and the last of two assignments wins;
    the assignment touches no property but [__url], so it never gives the
    instance a [url] of its own; and an instance on which none was set has
    the url its class computes. *)
Theorem instance_url_round_trip (this : Class) (instance : Obj)
    (u u' : string) :
  Instance.get this (Instance.set u instance) = u /\
  Instance.get this (Instance.set u (Instance.set u' instance)) = u /\
  (forall k, k <> "__url" ->
     ownProperty (Instance.set u instance) k = ownProperty instance k) /\
  hasOwnProperty (Instance.set u instance) "url"
    = hasOwnProperty instance "url" /\
  (ownProperty instance "__url" = None ->
   Instance.get this instance = This.url this instance).
Proof.
  assert (forall o, Instance.get this (Instance.set u o) = u) as Hget.
  { intros o. unfold Instance.get, Instance.set, Instance.own_url.
    rewrite ownProperty_assocSet. now rewrite decide_True. }
  assert (forall k, k <> "__url" ->
            ownProperty (Instance.set u instance) k = ownProperty instance k)
    as Hframe.
  { intros k Hk. unfold Instance.set. rewrite ownProperty_assocSet.
    now rewrite decide_False by congruence. }
  split; [apply Hget|]. split; [apply Hget|]. split; [exact Hframe|]. split.
  - rewrite !hasOwnProperty_ownProperty. now rewrite Hframe.
  - intros Hnone. unfold Instance.get, Instance.own_url. now rewrite Hnone.
Qed.

End CollisionAndInstances.

(** * The hooks of useResource *)

Section HookFacts.
Context {FetchOptions Response : Type}.
Variables State Pending Err : Type.
Abbreviation ReadShape := (Shape.FetchShape FetchOptions Response).
Abbreviation Params := (option Obj).
Variable useRetrieve : ReadShape -> Params -> option Pending.
Variable useDenormalized : ReadShape -> Params -> State -> Value * bool.
Variable useError : ReadShape -> Params -> bool -> option Err.
Variable hasUsableData : bool -> ReadShape -> bool.
Variable state : State.

Abbreviation useOne :=
  (Hooks.useOneResource State Pending Err useRetrieve useDenormalized
     useError hasUsableData state).
Abbreviation useMany :=
  (Hooks.useManyResources State Pending Err useRetrieve useDenormalized
     useError hasUsableData state).
Abbreviation use :=
  (Hooks.useResource State Pending Err useRetrieve useDenormalized
     useError hasUsableData state).
Abbreviation waitedOn :=
  (Hooks.waitedOn State Pending useRetrieve useDenormalized hasUsableData
     state).
Abbreviation errorOf :=
  (Hooks.errorOf State Err useDenormalized useError state).
Abbreviation dataOf := (Hooks.dataOf State useDenormalized state).
Abbreviation validError :=
  (Hooks.validError State Pending Err useRetrieve useDenormalized useError
     hasUsableData state).

(** Every index the second [map] reads is in range. *)
Lemma onlyWithoutResults_in_range (pre suf : list (ReadShape * Params)) :
  Hooks.onlyWithoutResults Pending Err hasUsableData (pre ++ suf)
    (map (fun r => useDenormalized r.1 r.2 state) (pre ++ suf))
    (length pre) (map (fun r => useRetrieve r.1 r.2) suf)
  = Hooks.Return (map waitedOn suf).
Proof.
  revert pre. induction suf as [|r suf IH]; intros pre.
  - reflexivity.
  - simpl. rewrite list_lookup_fmap.
    rewrite (list_lookup_middle pre suf r (length pre) eq_refl). simpl.
    specialize (IH (pre ++ [r])).
    rewrite <- app_assoc, length_app, Nat.add_1_r in IH. simpl in IH.
    now rewrite IH.
Qed.

(** The [for] loop stops at the first resource whose error is a valid
    one, and only there. *)
Lemma throwFirstValidError_in_range (pre suf : list (ReadShape * Params)) :
  Hooks.throwFirstValidError Pending Err useError (pre ++ suf)
    (map (fun r => useDenormalized r.1 r.2 state) (pre ++ suf))
    (map waitedOn (pre ++ suf)) (seq (length pre) (length suf))
  = Hooks.ThrowError <$> head (omap validError suf).
Proof.
  revert pre. induction suf as [|r suf IH]; intros pre.
  - reflexivity.
  - simpl. rewrite !list_lookup_fmap.
    rewrite (list_lookup_middle pre suf r (length pre) eq_refl). simpl.
    specialize (IH (pre ++ [r])).
    rewrite <- app_assoc, length_app, Nat.add_1_r in IH. simpl in IH.
    destruct r as [fetchShape params].
    unfold Hooks.validError at 1, Hooks.errorOf. simpl.
    destruct (useDenormalized fetchShape params state) as [data ready].
    simpl.
    destruct (useError fetchShape params ready) as [e|]; [|exact IH].
    destruct (waitedOn (fetchShape, params)) as [p|];
      [exact IH|reflexivity].
Qed.

Lemma omap_map_ext {A B C : Type} (f : A -> B) (g : B -> option C)
    (h : A -> option C) (l : list A) :
  (forall x, g (f x) = h x) -> omap g (map f l) = omap h l.
Proof.
  intros Hext. induction l as [|x l IH]; simpl; [reflexivity|].
  rewrite Hext. destruct (h x); [f_equal|]; exact IH.
Qed.

Lemma omap_nil_Forall {A B : Type} (f : A -> option B) (l : list A) :
  omap f l = [] <-> Forall (fun x => f x = None) l.
Proof.
  induction l as [|x l IH]; simpl.
  - split; [constructor|reflexivity].
  - destruct (f x) as [y|] eqn:Hx; split.
    + discriminate.
    + intros Hall. apply Forall_cons in Hall as [Hnone _]. congruence.
    + intros Hnil. apply Forall_cons. split; [exact Hx|now apply IH].
    + intros Hall. apply Forall_cons in Hall as [_ Hall]. now apply IH.
Qed.

Lemma head_None_nil {A : Type} (l : list A) : head l = None <-> l = [].
Proof. now destruct l. Qed.

(** [useManyResources], resource by resource: the first valid error, or
    else the promises waited on, or else the data. *)
Lemma useManyResources_by_resource (resourceList : list (ReadShape * Params)) :
  useMany resourceList
  = match head (omap validError resourceList) with
    | Some e => Hooks.Throw (Hooks.ThrowError e)
    | None =>
        match omap waitedOn resourceList with
        | [] => Hooks.Return (VArr (map dataOf resourceList))
        | p :: ps => Hooks.Throw (Hooks.ThrowAll (p :: ps))
        end
    end.
Proof.
  unfold Hooks.useManyResources.
  pose proof (onlyWithoutResults_in_range [] resourceList) as Hpromises.
  pose proof (throwFirstValidError_in_range [] resourceList) as Herror.
  simpl in Hpromises, Herror. rewrite Hpromises, Herror.
  destruct (head (omap validError resourceList)) as [e|]; simpl;
    [reflexivity|].
  rewrite (omap_map_ext waitedOn id waitedOn) by reflexivity.
  rewrite map_map.
  now destruct (omap waitedOn resourceList).
Qed.

Lemma useOneResource_by_resource (r : ReadShape * Params) :
  useOne r.1 r.2
  = match waitedOn r with
    | Some p => Hooks.Throw (Hooks.ThrowPromise p)
    | None =>
        match errorOf r with
        | Some e => Hooks.Throw (Hooks.ThrowError e)
        | None => Hooks.Return (dataOf r)
        end
    end.
Proof.
  unfold Hooks.useOneResource, Hooks.waitedOn, Hooks.errorOf, Hooks.dataOf.
  now destruct (useDenormalized r.1 r.2 state) as [data ready].
Qed.

Lemma errorThrown_useOne (r : ReadShape * Params) :
  Hooks.errorThrown (useOne r.1 r.2) = validError r.
Proof.
  rewrite useOneResource_by_resource. unfold Hooks.validError.
  destruct (waitedOn r) as [p|], (errorOf r) as [e|]; reflexivity.
Qed.

Lemma promiseThrown_useOne (r : ReadShape * Params) :
  Hooks.promiseThrown (useOne r.1 r.2) = waitedOn r.
Proof.
  rewrite useOneResource_by_resource.
  destruct (waitedOn r) as [p|], (errorOf r) as [e|]; reflexivity.
Qed.

Lemma returned_useOne (r : ReadShape * Params) :
  validError r = None -> waitedOn r = None ->
  useOne r.1 r.2 = Hooks.Return (dataOf r).
Proof.
  rewrite useOneResource_by_resource. unfold Hooks.validError.
  intros Herror Hwait. rewrite Hwait in Herror |- *.
  destruct (errorOf r); [discriminate|reflexivity].
Qed.

Lemma returned_each (l : list (ReadShape * Params)) :
  omap waitedOn l = [] -> head (omap validError l) = None ->
  omap Hooks.returned (map (fun r => useOne r.1 r.2) l) = map dataOf l.
Proof.
  intros Hwait Herror.
  apply omap_nil_Forall in Hwait.
  apply head_None_nil, omap_nil_Forall in Herror.
  induction l as [|r l IH]; [reflexivity|].
  apply Forall_cons in Hwait as [Hw Hwait].
  apply Forall_cons in Herror as [He Herror].
  change (omap Hooks.returned (useOne r.1 r.2
                               :: map (fun r => useOne r.1 r.2) l)
          = dataOf r :: map dataOf l).
  rewrite (returned_useOne r He Hw). simpl.
  f_equal. now apply IH.
Qed.

(** X8: reading many resources is reading each one.  With [each] the
    outcomes of [useResource(shape, params)] for the pairs of the list,
    [useResource([shape, params], ...)] throws the first error that any of
    them throws; if none throws an error, it throws the [Promise.all] of
    the promises they throw, in order; if none throws, it returns the
    array of what they return.  It reads no index out of range. *)
Theorem many_resources_from_one (r : ReadShape * Params)
    (rs : list (ReadShape * Params)) :
  let each := map (fun r => use (Hooks.OneResource r.1 r.2)) (r :: rs) in
  use (Hooks.ManyResources r rs)
  = match head (omap Hooks.errorThrown each) with
    | Some e => Hooks.Throw (Hooks.ThrowError e)
    | None =>
        match omap Hooks.promiseThrown each with
        | [] => Hooks.Return (VArr (omap Hooks.returned each))
        | p :: ps => Hooks.Throw (Hooks.ThrowAll (p :: ps))
        end
    end /\
  (omap Hooks.promiseThrown each = [] ->
   head (omap Hooks.errorThrown each) = None ->
   length (omap Hooks.returned each) = length (r :: rs)).
Proof.
  intros each. subst each. unfold Hooks.useResource.
  fold (useOne).
  rewrite useManyResources_by_resource.
  rewrite (omap_map_ext (fun r => useOne r.1 r.2) Hooks.errorThrown
             validError) by apply errorThrown_useOne.
  rewrite (omap_map_ext (fun r => useOne r.1 r.2) Hooks.promiseThrown
             waitedOn) by apply promiseThrown_useOne.
  pose proof (returned_each (r :: rs)) as Hdata.
  split.
  - destruct (head (omap validError (r :: rs))) as [e|] eqn:Herror;
      [reflexivity|].
    destruct (omap waitedOn (r :: rs)) as [|p ps] eqn:Hwait; [|reflexivity].
    now rewrite Hdata.
  - intros Hwait Herror. rewrite Hdata by assumption.
    now rewrite length_map.
Qed.

Lemma useOne_Return (r : ReadShape * Params) (v : Value) :
  useOne r.1 r.2 = Hooks.Return v <->
  waitedOn r = None /\ validError r = None /\ v = dataOf r.
Proof.
  rewrite useOneResource_by_resource. unfold Hooks.validError.
  destruct (waitedOn r) as [p|], (errorOf r) as [e|]; split;
    try discriminate; try (intros (? & ? & ?); discriminate).
  - intros [= <-]. auto.
  - now intros (_ & _ & ->).
Qed.

(** X9: the hook returns for a list exactly when it returns for each
    member.  [useResource([shape, params], ...)] returns [v] if and only
    if [v] is an array that has, at each index, what
    [useResource(shape, params)] returns for the pair at that index. *)
Theorem many_resources_return (r : ReadShape * Params)
    (rs : list (ReadShape * Params)) (v : Value) :
  use (Hooks.ManyResources r rs) = Hooks.Return v <->
  exists vs, v = VArr vs /\
    Forall2 (fun r v => use (Hooks.OneResource r.1 r.2) = Hooks.Return v)
      (r :: rs) vs.
Proof.
  unfold Hooks.useResource. fold useOne.
  rewrite useManyResources_by_resource.
  generalize (r :: rs). clear r rs. intros l. split.
  - destruct (head (omap validError l)) as [e|] eqn:Herror; [discriminate|].
    destruct (omap waitedOn l) as [|p ps] eqn:Hwait; [|discriminate].
    intros [= <-]. exists (map dataOf l). split; [reflexivity|].
    apply omap_nil_Forall in Hwait.
    apply head_None_nil, omap_nil_Forall in Herror.
    induction l as [|r l IH]; [constructor|].
    apply Forall_cons in Hwait as [Hw Hwait].
    apply Forall_cons in Herror as [He Herror].
    simpl. constructor; [|now apply IH].
    now apply useOne_Return.
  - intros (vs & -> & Heach).
    assert (omap validError l = [] /\ omap waitedOn l = [] /\
            vs = map dataOf l) as (-> & -> & ->); [|reflexivity].
    induction Heach as [|r v l vs Hr Heach (IHe & IHw & IHv)];
      [now repeat split|].
    apply useOne_Return in Hr as (Hw & He & ->).
    simpl. change (list_omap _ _ validError l) with (omap validError l).
    change (list_omap _ _ waitedOn l) with (omap waitedOn l).
    rewrite He, Hw, IHe, IHw, <- IHv. now repeat split.
Qed.

Lemma head_is_Some_Permutation {A : Type} (l k : list A) :
  l ≡ₚ k -> is_Some (head l) <-> is_Some (head k).
Proof.
  intros Hperm. destruct l as [|x l], k as [|y k]; simpl.
  - reflexivity.
  - now apply Permutation_nil_l in Hperm.
  - now apply Permutation_nil_r in Hperm.
  - split; eauto.
Qed.

(** X10: the order of the list decides which error is thrown, and
    nothing else.  For two lists with the same members in another order,
    the hook throws an error on one if and only if it throws an error on
    the other; if it waits on one, it waits on the other, for the same
    promises; if it returns on one, it returns on the other, an array of
    the same values. *)
Theorem many_resources_any_order (r r' : ReadShape * Params)
    (rs rs' : list (ReadShape * Params)) :
  r :: rs ≡ₚ r' :: rs' ->
  (is_Some (Hooks.errorThrown (use (Hooks.ManyResources r rs))) <->
   is_Some (Hooks.errorThrown (use (Hooks.ManyResources r' rs')))) /\
  (forall ps, use (Hooks.ManyResources r rs) = Hooks.Throw (Hooks.ThrowAll ps) ->
     exists ps', use (Hooks.ManyResources r' rs')
                 = Hooks.Throw (Hooks.ThrowAll ps') /\ ps ≡ₚ ps') /\
  (forall vs, use (Hooks.ManyResources r rs) = Hooks.Return (VArr vs) ->
     exists vs', use (Hooks.ManyResources r' rs') = Hooks.Return (VArr vs') /\
                 vs ≡ₚ vs').
Proof.
  unfold Hooks.useResource.
  rewrite !useManyResources_by_resource.
  generalize (r :: rs) (r' :: rs'). clear r r' rs rs'. intros l l' Hperm.
  pose proof (head_is_Some_Permutation _ _
                (omap_Permutation validError _ _ Hperm)) as Herror.
  pose proof (omap_Permutation waitedOn _ _ Hperm) as Hwait.
  pose proof (fmap_Permutation dataOf _ _ Hperm) as Hdata.
  destruct (head (omap validError l)) as [e|],
           (head (omap validError l')) as [e'|];
    try (exfalso; now (apply (is_Some_None (A:=Err)), Herror; eauto)).
  - repeat split; eauto; discriminate.
  - destruct (omap waitedOn l) as [|p ps], (omap waitedOn l') as [|p' ps'];
      try (now apply Permutation_nil_l in Hwait);
      try (now apply Permutation_nil_r in Hwait);
      simpl; (split; [split; intros [? [=]]|]); split;
      try discriminate.
    + intros vs [= <-]. eauto.
    + intros qs [= <-]. eauto.
Qed.

End HookFacts.

(** * Runs of the added properties *)

Lemma shape_requests_what_its_key_names_witness :
  Shape.fetch (SimpleResource.updateShape Examples.UserResource)
    [("id", VNum 5)] (Some (VObj [("name", VStr "Ada")]))
  = This.fetch Examples.UserResource This.Mput "/users/5"
      (Some (VObj [("name", VStr "Ada")])).
Proof.
  destruct (proj1 (Forall_lookup _ _)
              (shape_requests_what_its_key_names Examples.UserResource
                 [("id", VNum 5)] (Some (VObj [("name", VStr "Ada")])))
              3%nat _ eq_refl) as (_ & _ & Hfetch).
  apply Hfetch. discriminate.
Defined.

Lemma delete_resolves_with_params_witness :
  Shape.fetch (SimpleResource.deleteShape Examples.UserResource)
    [("id", VNum 5)] (Some (VStr "ignored"))
  = ([This.mkRequest This.Mdelete "/users/5" None],
     Returns (Fulfilled (VObj [("id", VNum 5)]))).
Proof.
  destruct (delete_resolves_with_params Examples.UserResource
              [("id", VNum 5)] (Some (VStr "ignored")))
    as (_ & Hfulfilled & _).
  apply (Hfulfilled _ VNull). reflexivity.
Defined.

Lemma url_trailing_slash_witness :
  SimpleResource.url (This.mkDecl "User" "/users/" Examples.idPk)
    [("id", VNum 5)] = "/users/5".
Proof.
  destruct (url_trailing_slash "User" "/users" Examples.idPk
              [("id", VNum 5)] "5" eq_refl eq_refl) as [Hsame Hurl].
  change ("/users/") with ("/users" +:+ "/").
  rewrite Hsame. apply Hurl. reflexivity.
Defined.

Lemma urls_start_with_urlRoot_witness :
  String.prefix "/users" (SimpleResource.url Examples.User [("id", VNum 5)])
  = true.
Proof.
  apply (urls_start_with_urlRoot Examples.queryString Examples.User
           [("id", VNum 5)]).
  intros s Hown. discriminate Hown.
Defined.

Lemma detail_key_can_be_list_key_witness :
  Shape.getFetchKey
    (SimpleResource.detailShape
       (SimpleResource.extends (FetchOptions:=unit) (Response:=unit)
          Examples.queryString Examples.Settings))
    [("theme", VStr "dark")]
  = Shape.getFetchKey
      (SimpleResource.listShape
         (SimpleResource.extends (FetchOptions:=unit) (Response:=unit)
            Examples.queryString Examples.Settings))
      [].
Proof.
  apply (detail_key_can_be_list_key Examples.queryString Examples.Settings
           [("theme", VStr "dark")]).
  - reflexivity.
  - intros s Hown. discriminate Hown.
Defined.

Lemma instance_url_round_trip_witness :
  ownProperty (Instance.set "/me" [("id", VNum 5)]) "id" = Some (VNum 5) /\
  Instance.get Examples.UserResource [("id", VNum 5)] = "/users/5".
Proof.
  destruct (instance_url_round_trip Examples.UserResource [("id", VNum 5)]
              "/me" "/you") as (_ & _ & Hframe & _ & Hunset).
  split.
  - rewrite Hframe; [reflexivity|discriminate].
  - rewrite Hunset; reflexivity.
Defined.

Lemma many_resources_from_one_witness :
  Hooks.useResource HookExamples.t string string
    (HookExamples.useRetrieve HookExamples.example)
    HookExamples.useDenormalized
    (HookExamples.useError HookExamples.example)
    HookExamples.hasUsableData HookExamples.example
    (Hooks.ManyResources (HookExamples.user 5) [])
  = Hooks.Return (VArr [VObj [("id", VNum 5)]]) /\
  Hooks.useResource HookExamples.t string string
    (HookExamples.useRetrieve HookExamples.example)
    HookExamples.useDenormalized
    (HookExamples.useError HookExamples.example)
    HookExamples.hasUsableData HookExamples.example
    (Hooks.ManyResources (HookExamples.user 5)
       [HookExamples.user 6; HookExamples.user 7])
  = Hooks.Throw (Hooks.ThrowError "404").
Proof.
  split.
  - destruct (many_resources_from_one HookExamples.t string string
                (HookExamples.useRetrieve HookExamples.example)
                HookExamples.useDenormalized
                (HookExamples.useError HookExamples.example)
                HookExamples.hasUsableData HookExamples.example
                (HookExamples.user 5) []) as [Hmany Hlength].
    specialize (Hlength eq_refl eq_refl).
    rewrite Hmany. reflexivity.
  - destruct (many_resources_from_one HookExamples.t string string
                (HookExamples.useRetrieve HookExamples.example)
                HookExamples.useDenormalized
                (HookExamples.useError HookExamples.example)
                HookExamples.hasUsableData HookExamples.example
                (HookExamples.user 5)
                [HookExamples.user 6; HookExamples.user 7]) as [Hmany _].
    rewrite Hmany. reflexivity.
Defined.

Lemma many_resources_any_order_witness :
  is_Some
    (Hooks.errorThrown
       (Hooks.useResource HookExamples.t string string
          (HookExamples.useRetrieve HookExamples.example)
          HookExamples.useDenormalized
          (HookExamples.useError HookExamples.example)
          HookExamples.hasUsableData HookExamples.example
          (Hooks.ManyResources (HookExamples.user 5) [HookExamples.user 7])))
  <-> is_Some
    (Hooks.errorThrown
       (Hooks.useResource HookExamples.t string string
          (HookExamples.useRetrieve HookExamples.example)
          HookExamples.useDenormalized
          (HookExamples.useError HookExamples.example)
          HookExamples.hasUsableData HookExamples.example
          (Hooks.ManyResources (HookExamples.user 7) [HookExamples.user 5]))).
Proof.
  apply (many_resources_any_order HookExamples.t string string
           (HookExamples.useRetrieve HookExamples.example)
           HookExamples.useDenormalized
           (HookExamples.useError HookExamples.example)
           HookExamples.hasUsableData HookExamples.example
           (HookExamples.user 5) (HookExamples.user 7)
           [HookExamples.user 7] [HookExamples.user 5]).
  apply perm_swap.
Defined.
